(** * The browser-side token controller of [app.js]

    A shallow embedding of the three click handlers of [src/app.js]
    (save token, update bio, delete token) and the facts the specification
    states about them.

    The handlers are ordinary JavaScript: they read and write DOM elements
    looked up by id, call [fetch], branch on the parsed JSON answer and
    catch whatever is thrown inside their [try] block.  They are embedded
    as computations in a small state-and-exception monad over a [world]
    made of the document (a finite map from element ids to elements) and
    the trace of the effects that leave the page (requests, dialogs,
    console output, reloads).

    What the embedding leaves out: a handler runs from the click to its end
    in one piece, so other events served while it awaits the network are
    not interleaved; numbers are integers of magnitude at most 2^53, the
    range in which a double is the integer written and prints as its plain
    decimal digits; and an element is reduced to its
    [value], its [innerText] (the text last assigned to it) and its class
    list. *)

From Stdlib Require Import ZArith NArith List Ascii String Lia.
From Stdlib Require Import Decimal DecimalZ DecimalPos.
From stdpp Require Import base option list gmap strings.

Local Open Scope Z_scope.
#[local] Set Warnings "-register-all".


(** ** JavaScript strings

    A JavaScript string is a sequence of UTF-16 code units.  Literals of
    the source are written as Rocq strings (UTF-8 bytes) and decoded by
    [js]. *)

Abbreviation jsstring := (list N).

Module Utf.

Fixpoint bytes (s : string) : list N :=
  match s with
  | EmptyString => []
  | String a r => N_of_ascii a :: bytes r
  end.

(** Low six bits of a continuation byte. *)
Definition cont (b : N) : N := N.land b 63.

(** UTF-8 bytes to code points; a byte that does not start a complete
    sequence decodes to U+FFFD. *)
Fixpoint decode (l : list N) : list N :=
  match l with
  | [] => []
  | b1 :: l1 =>
    if (b1 <? 128)%N then b1 :: decode l1
    else if ((192 <=? b1) && (b1 <? 224))%N then
      match l1 with
      | b2 :: l2 => (N.land b1 31 * 64 + cont b2)%N :: decode l2
      | [] => [65533%N]
      end
    else if ((224 <=? b1) && (b1 <? 240))%N then
      match l1 with
      | b2 :: b3 :: l3 =>
        (N.land b1 15 * 4096 + cont b2 * 64 + cont b3)%N :: decode l3
      | _ => [65533%N]
      end
    else if ((240 <=? b1) && (b1 <? 248))%N then
      match l1 with
      | b2 :: b3 :: b4 :: l4 =>
        (N.land b1 7 * 262144 + cont b2 * 4096 + cont b3 * 64 + cont b4)%N
          :: decode l4
      | _ => [65533%N]
      end
    else 65533%N :: decode l1
  end.

(** One code point as UTF-16 code units. *)
Definition units (cp : N) : list N :=
  if (cp <? 65536)%N then [cp]
  else
    let v := (cp - 65536)%N in
    [(55296 + N.shiftr v 10)%N; (56320 + N.land v 1023)%N].

End Utf.

(** The JavaScript string written by a source literal. *)
Definition js (s : string) : jsstring :=
  concat (map Utf.units (Utf.decode (Utf.bytes s))).

(** The same, with every apostrophe standing for a quotation mark: used to
    write down expected JSON texts. *)
Definition jsq (s : string) : jsstring :=
  map (fun c => if (c =? 39)%N then 34%N else c) (js s).

(** ** String.prototype.trim *)

(** WhiteSpace and LineTerminator code points of ECMAScript: TAB, LF, VT,
    FF, CR, SP, NBSP, U+1680, U+2000..U+200A, U+2028, U+2029, U+202F,
    U+205F, U+3000 and U+FEFF. *)
Definition is_ws (c : N) : bool :=
  ((9 <=? c) && (c <=? 13) || (c =? 32) || (c =? 160) || (c =? 5760)
   || (8192 <=? c) && (c <=? 8202) || (c =? 8232) || (c =? 8233)
   || (c =? 8239) || (c =? 8287) || (c =? 12288) || (c =? 65279))%N.

Fixpoint trimStart (s : jsstring) : jsstring :=
  match s with
  | c :: r => if is_ws c then trimStart r else s
  | [] => []
  end.

Definition trimEnd (s : jsstring) : jsstring :=
  reverse (trimStart (reverse s)).

Definition trim (s : jsstring) : jsstring := trimEnd (trimStart s).

(** ** Numbers

    The controller only ever handles record identifiers.  A number of the
    model is either an integer that a double represents exactly, or the
    result of converting a text that is not such an integer, kept by its
    text and not evaluated. *)

Inductive number :=
| NInt (z : Z)
| NOther (text : jsstring).

Definition MAX_EXACT : Z := 2 ^ 53.

Module Dec.

(** Decimal digits of a text, as a [Decimal.uint]. *)
Fixpoint read (s : jsstring) : option uint :=
  match s with
  | [] => Some Nil
  | c :: r =>
    match read r with
    | None => None
    | Some d =>
      if (c =? 48)%N then Some (D0 d) else
      if (c =? 49)%N then Some (D1 d) else
      if (c =? 50)%N then Some (D2 d) else
      if (c =? 51)%N then Some (D3 d) else
      if (c =? 52)%N then Some (D4 d) else
      if (c =? 53)%N then Some (D5 d) else
      if (c =? 54)%N then Some (D6 d) else
      if (c =? 55)%N then Some (D7 d) else
      if (c =? 56)%N then Some (D8 d) else
      if (c =? 57)%N then Some (D9 d) else None
    end
  end.

Fixpoint show (d : uint) : jsstring :=
  match d with
  | Nil => []
  | D0 r => 48%N :: show r
  | D1 r => 49%N :: show r
  | D2 r => 50%N :: show r
  | D3 r => 51%N :: show r
  | D4 r => 52%N :: show r
  | D5 r => 53%N :: show r
  | D6 r => 54%N :: show r
  | D7 r => 55%N :: show r
  | D8 r => 56%N :: show r
  | D9 r => 57%N :: show r
  end.

(** [+]/[-] sign followed by at least one digit, or digits alone. *)
Definition read_int (s : jsstring) : option Z :=
  match s with
  | [] => None
  | c :: r =>
    if (c =? 45)%N then
      match r with [] => None | _ => (fun d => - Z.of_uint d) <$> read r end
    else if (c =? 43)%N then
      match r with [] => None | _ => Z.of_uint <$> read r end
    else Z.of_uint <$> read s
  end.

(** Number::toString of an integer a double holds exactly, that is of
    magnitude at most 2^53: plain decimal digits with a leading minus sign
    for negative values.  Beyond that range the engine prints the shortest
    digits that read back as the same double, and an exponent from 10^21
    on, which these digits are not: see [safe_integers]. *)
Definition show_int (z : Z) : jsstring :=
  match Z.to_int z with
  | Pos d => show d
  | Neg d => 45%N :: show d
  end.

End Dec.

(** [Number(text)]: surrounding white space is ignored, the empty text is
    [0], a signed run of decimal digits is that integer.  Integers beyond
    2^53 (rounded by the engine) and the other numeric forms (fraction,
    exponent, radix prefix, Infinity, or no number at all: NaN) are left
    as [NOther]. *)
Definition Number_ (text : jsstring) : number :=
  let t := trim text in
  match t with
  | [] => NInt 0
  | _ =>
    match Dec.read_int t with
    | Some z => if Z.abs z <=? MAX_EXACT then NInt z else NOther t
    | None => NOther t
    end
  end.

(** ** Parsed JSON values

    [r.json()] hands the handler a value built from JSON text: the shapes
    below.  [JNum z] stands for the number [z] where a double holds the
    integer [z] exactly, that is for [z] of magnitude at most 2^53 (an
    identifier is such an integer); fractional and larger numbers are
    outside the model, and [safe_integers] tells the values that stay
    inside it.  The properties of an object are kept in enumeration order,
    each key once. *)

Inductive json :=
| JNull
| JBool (b : bool)
| JNum (z : Z)
| JStr (s : jsstring)
| JArr (items : list json)
| JObj (props : list (jsstring * json)).

(** What the script can throw or be handed by a rejected promise. *)
Inductive error :=
| TypeError (what : string)
| NetworkError (detail : jsstring)
| SyntaxError (detail : jsstring).

Inductive result (A : Type) :=
| Ok (a : A)
| Throw (e : error).
Arguments Ok {A} a.
Arguments Throw {A} e.

(** Own property of a parsed object. *)
Fixpoint own (props : list (jsstring * json)) (k : jsstring) : option json :=
  match props with
  | [] => None
  | (k', v) :: r => if decide (k' = k) then Some v else own r k
  end.

(** [j.k] for the names this script reads ([ok], [id], [error]), which no
    built-in prototype defines: [None] is [undefined]; reading a property
    of [null] throws. *)
Definition get (j : json) (k : jsstring) : result (option json) :=
  match j with
  | JNull => Throw (TypeError "property of null")
  | JObj props => Ok (own props k)
  | _ => Ok None
  end.

(** ToBoolean. *)
Definition truthy (v : option json) : bool :=
  match v with
  | None => false
  | Some JNull => false
  | Some (JBool b) => b
  | Some (JNum z) => negb (z =? 0)
  | Some (JStr s) => match s with [] => false | _ => true end
  | Some (JArr _) => true
  | Some (JObj _) => true
  end.

(** ToString of a parsed value.  An array joins its items with commas,
    [null] items giving the empty text.  A plain object answers
    [[object Object]] through Object.prototype.toString, unless an own
    property named [toString] shadows it: that property is not callable
    and the conversion throws. *)
Fixpoint ToString (j : json) : result jsstring :=
  match j with
  | JNull => Ok (js "null")
  | JBool b => Ok (if b then js "true" else js "false")
  | JNum z => Ok (Dec.show_int z)
  | JStr s => Ok s
  | JArr items =>
    (fix join (l : list json) : result jsstring :=
       match l with
       | [] => Ok []
       | x :: r =>
         match (match x with JNull => Ok [] | _ => ToString x end) with
         | Throw e => Throw e
         | Ok sx =>
           match r with
           | [] => Ok sx
           | _ =>
             match join r with
             | Throw e => Throw e
             | Ok sr => Ok (sx ++ js "," ++ sr)
             end
           end
         end
       end) items
  | JObj props =>
    match own props (js "toString") with
    | Some _ => Throw (TypeError "cannot convert object to primitive value")
    | None => Ok (js "[object Object]")
    end
  end.

(** Conversion of an assigned value to the text of [innerText]:
    [undefined] gives its name, [null] the empty text. *)
Definition to_DOMString (v : option json) : result jsstring :=
  match v with
  | None => Ok (js "undefined")
  | Some JNull => Ok []
  | Some j => ToString j
  end.

Module Quote.

Definition hex_digit (n : N) : N :=
  if (n <? 10)%N then (48 + n)%N else (87 + n)%N.

(** Backslash, [u] and four lowercase hexadecimal digits. *)
Definition unicode_escape (c : N) : jsstring :=
  [92; 117; hex_digit (N.land (N.shiftr c 12) 15);
   hex_digit (N.land (N.shiftr c 8) 15);
   hex_digit (N.land (N.shiftr c 4) 15); hex_digit (N.land c 15)]%N.

Definition is_high (c : N) : bool := ((55296 <=? c) && (c <=? 56319))%N.
Definition is_low (c : N) : bool := ((56320 <=? c) && (c <=? 57343))%N.

(** QuoteJSONString without the enclosing quotation marks. *)
Fixpoint body (s : jsstring) : jsstring :=
  match s with
  | [] => []
  | c :: r =>
    if (c =? 8)%N then 92%N :: 98%N :: body r
    else if (c =? 9)%N then 92%N :: 116%N :: body r
    else if (c =? 10)%N then 92%N :: 110%N :: body r
    else if (c =? 12)%N then 92%N :: 102%N :: body r
    else if (c =? 13)%N then 92%N :: 114%N :: body r
    else if (c =? 34)%N then 92%N :: 34%N :: body r
    else if (c =? 92)%N then 92%N :: 92%N :: body r
    else if (c <? 32)%N then unicode_escape c ++ body r
    else if is_high c then
      match r with
      | c2 :: r2 =>
        if is_low c2 then c :: c2 :: body r2
        else unicode_escape c ++ body r
      | [] => unicode_escape c
      end
    else if is_low c then unicode_escape c ++ body r
    else c :: body r
  end.

Definition quote (s : jsstring) : jsstring := 34%N :: body s ++ [34%N].

End Quote.

(** [JSON.stringify] of a parsed value (no indentation; no value of this
    type is callable, so an own [toJSON] property is ignored). *)
Fixpoint JSON_stringify (j : json) : jsstring :=
  match j with
  | JNull => js "null"
  | JBool b => if b then js "true" else js "false"
  | JNum z => Dec.show_int z
  | JStr s => Quote.quote s
  | JArr items =>
    js "[" ++
    (fix go (l : list json) : jsstring :=
       match l with
       | [] => []
       | x :: r =>
         JSON_stringify x ++
         match r with [] => [] | _ => js "," ++ go r end
       end) items
    ++ js "]"
  | JObj props =>
    js "{" ++
    (fix go (l : list (jsstring * json)) : jsstring :=
       match l with
       | [] => []
       | (k, v) :: r =>
         Quote.quote k ++ js ":" ++ JSON_stringify v ++
         match r with [] => [] | _ => js "," ++ go r end
       end) props
    ++ js "}"
  end.

(** The values all of whose numbers are integers of magnitude at most
    2^53.  On these, [ToString], [to_DOMString] and [JSON_stringify] print
    numbers as the engine does; a statement that shows the printed form of
    a number of the response assumes it. *)
Fixpoint safe_integers (j : json) : bool :=
  match j with
  | JNum z => Z.abs z <=? MAX_EXACT
  | JArr items => forallb safe_integers items
  | JObj props => forallb (λ kv, safe_integers kv.2) props
  | _ => true
  end.

(** ** The page and the world around it *)

(** An element of the page, with the three properties the script touches.
    [innerText] is kept as the text last assigned (or the text of the
    markup); [classList] is the set of class tokens. *)
Record element := Element {
  value : jsstring;
  innerText : jsstring;
  classList : gset string
}.

Definition set_innerText (text : jsstring) (el : element) : element :=
  Element (value el) text (classList el).

Definition classList_add (token : string) (el : element) : element :=
  Element (value el) (innerText el) ({[token]} ∪ classList el).

Definition classList_remove (token : string) (el : element) : element :=
  Element (value el) (innerText el) (classList el ∖ {[token]}).

(** The object literal handed to [JSON.stringify] as request body, one
    constructor per shape the script builds. *)
Inductive payload :=
| SaveRequest (token label : jsstring)
| UpdateRequest (id : number) (newBio : jsstring)
| DeleteRequest (id : number).

Record request := Request {
  url : jsstring;
  method : jsstring;
  headers : list (jsstring * jsstring);
  body : payload
}.

(** What comes back: the promise of [fetch] is rejected, or it yields a
    response whose body [r.json()] either parses or rejects.  The HTTP
    status is not looked at by the script. *)
Inductive response :=
| NotJson (detail : jsstring)
| Json (j : json).

Inductive fetch_outcome :=
| Rejected (detail : jsstring)
| Responded (r : response).

(** Effects that leave the page, in the order they happen. *)
Inductive event :=
| Fetched (rq : request)
| Logged (e : error)
| Alerted (msg : jsstring)
| Asked (msg : jsstring) (answer : bool)
| Reloaded.

Record world := World {
  document : gmap string element;
  trace : list event
}.

(** The two things the script does not control: the service behind
    [fetch] and the user in front of [confirm]. *)
Record env := Env {
  service : request → fetch_outcome;
  user : jsstring → bool
}.

(** ** The monad of handlers: environment, state and exceptions *)

Definition M (A : Type) : Type := env → world → result A * world.

#[global] Instance M_ret : MRet M := λ A a _ w, (Ok a, w).

#[global] Instance M_bind : MBind M := λ A B f m ε w,
  match m ε w with
  | (Ok a, w') => f a ε w'
  | (Throw e, w') => (Throw e, w')
  end.

Definition lift {A} (r : result A) : M A := λ _ w, (r, w).

(** [try { body } catch (e) { handler }]: what [body] did to the world
    before throwing stays done. *)
Definition try_catch (body : M unit) (handler : error → M unit) : M unit :=
  λ ε w,
    match body ε w with
    | (Ok a, w') => (Ok a, w')
    | (Throw e, w') => handler e ε w'
    end.

Definition emit (ev : event) : M unit :=
  λ _ w, (Ok tt, World (document w) (trace w ++ [ev])).

(** [document.getElementById(id)]: a reference to the element (its id),
    or [None] for [null]. *)
Definition getElementById (id : string) : M (option string) :=
  λ _ w,
    match document w !! id with
    | Some _ => (Ok (Some id), w)
    | None => (Ok None, w)
    end.

Definition null_access : error := TypeError "property of null".

(** Reading a property of a looked-up element; on [null] it throws. *)
Definition read {A} (prop : element → A) (ref : option string) : M A :=
  λ _ w,
    match ref with
    | Some id =>
      match document w !! id with
      | Some el => (Ok (prop el), w)
      | None => (Throw null_access, w)
      end
    | None => (Throw null_access, w)
    end.

(** Changing a looked-up element in place; on [null] it throws. *)
Definition write (ref : option string) (f : element → element) : M unit :=
  λ _ w,
    match ref with
    | Some id =>
      match document w !! id with
      | Some el => (Ok tt, World (<[id := f el]> (document w)) (trace w))
      | None => (Throw null_access, w)
      end
    | None => (Throw null_access, w)
    end.

(** [el.innerText = v] for a value [v] of the response: the [null] check
    on [el] comes first, then the conversion of [v] to text, which may
    throw as well. *)
Definition assign_innerText (ref : option string) (v : option json) : M unit :=
  λ ε w,
    match ref with
    | Some id =>
      match document w !! id with
      | Some el =>
        match to_DOMString v with
        | Ok text =>
          (Ok tt, World (<[id := set_innerText text el]> (document w)) (trace w))
        | Throw e => (Throw e, w)
        end
      | None => (Throw null_access, w)
      end
    | None => (Throw null_access, w)
    end.

(** [await fetch(url, {method, headers, body: JSON.stringify(data)})]. *)
Definition fetch (rq : request) : M response :=
  λ ε w,
    let w' := World (document w) (trace w ++ [Fetched rq]) in
    match service ε rq with
    | Rejected d => (Throw (NetworkError d), w')
    | Responded r => (Ok r, w')
    end.

(** [await r.json()]. *)
Definition json_of (r : response) : M json :=
  match r with
  | NotJson d => lift (Throw (SyntaxError d))
  | Json j => mret j
  end.

Definition console_error (e : error) : M unit := emit (Logged e).
Definition alert (msg : jsstring) : M unit := emit (Alerted msg).
Definition location_reload : M unit := emit Reloaded.

Definition confirm (msg : jsstring) : M bool :=
  λ ε w,
    let a := user ε msg in
    (Ok a, World (document w) (trace w ++ [Asked msg a])).

(** [a || b] on texts. *)
Definition or_else (a b : jsstring) : jsstring :=
  match a with [] => b | _ => a end.

(** The right operand of [prefix + (j.error || JSON.stringify(j))], as
    the text the concatenation appends. *)
Definition error_text (j : json) (err : option json) : result jsstring :=
  match err with
  | Some v => if truthy err then ToString v else Ok (JSON_stringify j)
  | None => Ok (JSON_stringify j)
  end.

(** ** The script *)

Definition apiBase : jsstring := js "".

Definition POST : jsstring := js "POST".

Definition json_headers : list (jsstring * jsstring) :=
  [(js "Content-Type", js "application/json")].

(** The arguments of the three [fetch] calls. *)
Definition save_request (token label : jsstring) : request :=
  Request (apiBase ++ js "/api/save-token") POST json_headers
    (SaveRequest token label).

Definition update_request (id : number) (newBio : jsstring) : request :=
  Request (apiBase ++ js "/api/update-bio") POST json_headers
    (UpdateRequest id newBio).

Definition delete_request (id : number) : request :=
  Request (apiBase ++ js "/api/delete-token") POST json_headers
    (DeleteRequest id).

Module Msg.
Definition saving := js "جاري الحفظ...".
Definition saved := js "تم الحفظ. يمكنك الآن التعديل.".
Definition save_failed := js "خطأ: ".
Definition connection := js "خطأ في الاتصال".
Definition updating := js "جاري التحديث...".
Definition updated := js "تم التحديث بنجاح.".
Definition update_failed := js "فشل: ".
Definition ask_delete := js "هل تريد حذف هذا التوكن من الخادم؟".
Definition deleted := js "تم الحذف".
Definition delete_failed := js "فشل الحذف".
Definition delete_error := js "خطأ".
End Msg.

(** Click on [saveTokenBtn] (lines 3-28). *)
Definition saveTokenBtn_click : M unit :=
  tokenEl ← getElementById "token";
  tokenValue ← read value tokenEl;
  let token := trim tokenValue in
  labelEl ← getElementById "label";
  labelValue ← read value labelEl;
  let label := or_else (trim labelValue) (js "default") in
  resultEl ← getElementById "saveResult";
  write resultEl (set_innerText Msg.saving);;
  try_catch
    (r ← fetch (save_request token label);
     j ← json_of r;
     ok ← lift (get j (js "ok"));
     if truthy ok then
       write resultEl (set_innerText Msg.saved);;
       tokenIdEl ← getElementById "tokenId";
       id ← lift (get j (js "id"));
       assign_innerText tokenIdEl id;;
       step1 ← getElementById "step1";
       write step1 (classList_add "hidden");;
       dashboard ← getElementById "dashboard";
       write dashboard (classList_remove "hidden")
     else
       err ← lift (get j (js "error"));
       detail ← lift (error_text j err);
       write resultEl (set_innerText (Msg.save_failed ++ detail)))
    (λ e,
       write resultEl (set_innerText Msg.connection);;
       console_error e).

(** Click on [updateBioBtn] (lines 30-52). *)
Definition updateBioBtn_click : M unit :=
  tokenIdEl ← getElementById "tokenId";
  idText ← read innerText tokenIdEl;
  let id := Number_ idText in
  newBioEl ← getElementById "newBio";
  newBio ← read value newBioEl;
  resEl ← getElementById "updateResult";
  write resEl (set_innerText Msg.updating);;
  try_catch
    (r ← fetch (update_request id newBio);
     j ← json_of r;
     ok ← lift (get j (js "ok"));
     if truthy ok then
       write resEl (set_innerText Msg.updated);;
       displayBio ← getElementById "displayBio";
       write displayBio (set_innerText newBio)
     else
       err ← lift (get j (js "error"));
       detail ← lift (error_text j err);
       write resEl (set_innerText (Msg.update_failed ++ detail)))
    (λ e,
       write resEl (set_innerText Msg.connection);;
       console_error e).

(** Click on [deleteTokenBtn] (lines 54-71). *)
Definition deleteTokenBtn_click : M unit :=
  tokenIdEl ← getElementById "tokenId";
  idText ← read innerText tokenIdEl;
  let id := Number_ idText in
  yes ← confirm Msg.ask_delete;
  if negb yes then mret tt
  else
    try_catch
      (r ← fetch (delete_request id);
       j ← json_of r;
       ok ← lift (get j (js "ok"));
       if truthy ok then
         alert Msg.deleted;;
         location_reload
       else alert Msg.delete_failed)
      (λ e, alert Msg.delete_error).

(** ** Reading the page: session identifier and view *)

(** The session identifier is what the two later handlers read back from
    the [tokenId] element. *)
Definition session_text (d : gmap string element) : option jsstring :=
  innerText <$> d !! "tokenId".

Definition session (d : gmap string element) : option number :=
  Number_ <$> session_text d.

Inductive view := Setup | Dashboard.

Definition hidden (el : element) : bool :=
  bool_decide ("hidden" ∈ classList el).

(** Setup: step 1 shown and the dashboard hidden; Dashboard: the reverse. *)
Definition view_of (d : gmap string element) : option view :=
  s ← d !! "step1";
  b ← d !! "dashboard";
  match hidden s, hidden b with
  | false, true => Some Setup
  | true, false => Some Dashboard
  | _, _ => None
  end.

(** ** Reload

    [location.reload()] only asks for a navigation.  Once the handler has
    returned, the browser loads the page again and the document is the one
    the markup describes.  The markup is not part of [app.js]: it is the
    parameter [markup] of [click]. *)

Definition is_reload (ev : event) : bool :=
  match ev with Reloaded => true | _ => false end.

Definition click (markup : gmap string element) (handler : M unit)
    (ε : env) (w : world) : result unit * world :=
  let '(r, w') := handler ε w in
  if existsb is_reload (drop (length (trace w)) (trace w'))
  then (r, World markup (trace w'))
  else (r, w').

(** The error a failed transport hands to the [catch] block, if the
    outcome is such a failure. *)
Definition transport_error (o : fetch_outcome) : option error :=
  match o with
  | Rejected d => Some (NetworkError d)
  | Responded (NotJson d) => Some (SyntaxError d)
  | Responded (Json _) => None
  end.

(** ** The top level of the script

    Loading [app.js] runs its three statements in order (lines 3, 30 and
    54): each looks a button up and attaches a click listener to it.  A
    missing button makes the lookup answer [null], the call throws, and the
    rest of the script is not run. *)

Record listener := Listener {
  target : string;
  kind : jsstring;
  callback : M unit
}.

(** [document.getElementById(button).addEventListener(type, h)], on the
    document [d] and the listeners attached so far. *)
Definition addEventListener (d : gmap string element) (button : string)
    (type : jsstring) (h : M unit) (ls : list listener)
    : result unit * list listener :=
  match d !! button with
  | Some _ => (Ok tt, ls ++ [Listener button type h])
  | None => (Throw null_access, ls)
  end.

Definition script (d : gmap string element) : result unit * list listener :=
  match addEventListener d "saveTokenBtn" (js "click") saveTokenBtn_click [] with
  | (Throw e, ls) => (Throw e, ls)
  | (Ok _, ls1) =>
    match
      addEventListener d "updateBioBtn" (js "click") updateBioBtn_click ls1
    with
    | (Throw e, ls) => (Throw e, ls)
    | (Ok _, ls2) =>
      addEventListener d "deleteTokenBtn" (js "click") deleteTokenBtn_click ls2
    end
  end.

(** An event of the given type on an element runs, in the order they were
    attached, the listeners attached to that element for that type; what
    one of them throws is reported and does not stop the next. *)
Fixpoint dispatch (ls : list listener) (on : string) (type : jsstring)
    (ε : env) (w : world) : list (result unit) * world :=
  match ls with
  | [] => ([], w)
  | l :: rest =>
    if decide (target l = on ∧ kind l = type) then
      let '(r, w') := callback l ε w in
      let '(rs, w'') := dispatch rest on type ε w' in
      (r :: rs, w'')
    else dispatch rest on type ε w
  end.

(** ** A page and a few services to run the script on *)

Module Sample.

Definition blank : element := Element [] [] ∅.

Definition input (text : string) : element := Element (js text) [] ∅.

(** The page before any save: no identifier yet, step 1 shown, the
    dashboard hidden. *)
Definition page : gmap string element :=
  list_to_map
    [("token", input "  abc  "); ("label", input " ");
     ("saveResult", blank); ("tokenId", blank); ("step1", blank);
     ("dashboard", Element [] [] {["hidden"]});
     ("newBio", input " hi "); ("updateResult", blank);
     ("displayBio", blank)].

Definition start : world := World page [].

(** A service that answers every request with the same JSON value, and
    one that cannot be reached; [yes] is the user's answer to [confirm]. *)
Definition answering (j : json) (yes : bool) : env :=
  Env (λ _, Responded (Json j)) (λ _, yes).

Definition unreachable : jsstring := js "Failed to fetch".

Definition offline (yes : bool) : env :=
  Env (λ _, Rejected unreachable) (λ _, yes).

Definition saved42 : json := JObj [(js "ok", JBool true); (js "id", JNum 42)].
Definition accepted : json := JObj [(js "ok", JBool true)].
Definition dup : json :=
  JObj [(js "ok", JBool false); (js "error", JStr (js "dup"))].
Definition refused : json := JObj [(js "ok", JBool false)].
Definition silent : json :=
  JObj [(js "ok", JBool false); (js "error", JStr [])].

End Sample.

Example js_ascii : js "ok" = [111; 107]%N.
Proof. reflexivity. Qed.

Example js_arabic : js "خطأ" = [1582; 1591; 1571]%N.
Proof. reflexivity. Qed.

Example trim_example : trim (js "  a b  ") = js "a b".
Proof. reflexivity. Qed.

Example Number_42 : Number_ (js " 42 ") = NInt 42.
Proof. reflexivity. Qed.

Example show_neg : Dec.show_int (-17) = js "-17".
Proof. reflexivity. Qed.

Example stringify_example :
  JSON_stringify (JObj [(js "ok", JBool false); (js "error", JStr []);
                        (js "n", JArr [JNum 1; JNull; JStr (js "a b")])])
  = jsq "{'ok':false,'error':'','n':[1,null,'a b']}".
Proof. reflexivity. Qed.

Example save_then_update :
  let '(r1, w1) := saveTokenBtn_click (Sample.answering Sample.saved42 true)
                     Sample.start in
  let '(r2, w2) := updateBioBtn_click (Sample.answering Sample.accepted true) w1 in
  (r1, r2, session (document w2), view_of (document w2),
   innerText <$> document w2 !! "displayBio", trace w2)
  = (Ok tt, Ok tt, Some (NInt 42), Some Dashboard, Some (js " hi "),
     [Fetched (save_request (js "abc") (js "default"));
      Fetched (update_request (NInt 42) (js " hi "))]).
Proof. vm_compute. reflexivity. Qed.

Example save_null_answer :
  let '(r, w) := saveTokenBtn_click (Sample.answering JNull true) Sample.start in
  (r, innerText <$> document w !! "saveResult", view_of (document w), trace w)
  = (Ok tt, Some Msg.connection, Some Setup,
     [Fetched (save_request (js "abc") (js "default"));
      Logged (TypeError "property of null")]).
Proof. vm_compute. reflexivity. Qed.

Example quote_escapes :
  Quote.quote (js "a" ++ [34; 92; 10; 1; 55357; 56832; 56832]%N)
  = jsq "'a" ++ [92; 34; 92; 92]%N ++ js "\n\u0001" ++ [55357; 56832]%N
    ++ js "\ude00" ++ jsq "'".
Proof. reflexivity. Qed.

Example Number_not_an_integer :
  (Number_ (js "0x10"), Number_ (js "-"), Number_ (js " +7 "),
   Number_ (js "9007199254740993"))
  = (NOther (js "0x10"), NOther (js "-"), NInt 7,
     NOther (js "9007199254740993")).
Proof. reflexivity. Qed.

Example ToString_array :
  ToString (JArr [JNum 1; JNull; JArr [JStr (js "x"); JBool true]])
  = Ok (js "1,,x,true").
Proof. reflexivity. Qed.

(** * Facts about the text primitives *)

Section Trim.

Lemma trimStart_split (s : jsstring) :
  ∃ pre, s = pre ++ trimStart s ∧ Forall (λ c, is_ws c = true) pre.
Proof.
  induction s as [|c r (pre & Hr & Hpre)]; simpl.
  - by exists [].
  - destruct (is_ws c) eqn:Hc.
    + exists (c :: pre). split; [simpl; by f_equal | by constructor].
    + by exists [].
Qed.

Lemma trimStart_head (s : jsstring) c :
  head (trimStart s) = Some c → is_ws c = false.
Proof.
  induction s as [|a r IH]; simpl; [done|].
  destruct (is_ws a) eqn:Ha; [done|].
  simpl. congruence.
Qed.

Lemma trimStart_fixed (s : jsstring) :
  (∀ c, head s = Some c → is_ws c = false) → trimStart s = s.
Proof.
  destruct s as [|a r]; simpl; [done|].
  intros H. by rewrite (H a eq_refl).
Qed.

Lemma trimEnd_split (s : jsstring) :
  ∃ suf, s = trimEnd s ++ suf ∧ Forall (λ c, is_ws c = true) suf.
Proof.
  unfold trimEnd.
  destruct (trimStart_split (reverse s)) as (pre & Hs & Hpre).
  exists (reverse pre). split.
  - rewrite <- reverse_app, <- Hs. by rewrite reverse_involutive.
  - by apply Forall_reverse.
Qed.

Lemma trimEnd_last (s : jsstring) c :
  last (trimEnd s) = Some c → is_ws c = false.
Proof.
  unfold trimEnd. rewrite last_reverse. apply trimStart_head.
Qed.

Lemma trimEnd_fixed (s : jsstring) :
  (∀ c, last s = Some c → is_ws c = false) → trimEnd s = s.
Proof.
  intros H. unfold trimEnd. rewrite trimStart_fixed.
  - apply reverse_involutive.
  - intros c. rewrite head_reverse. apply H.
Qed.

(** [trim] removes a run of white space at each end and leaves a text
    that neither starts nor ends with white space. *)
Lemma trim_spec (s : jsstring) :
  ∃ pre suf,
    s = pre ++ trim s ++ suf
    ∧ Forall (λ c, is_ws c = true) pre
    ∧ Forall (λ c, is_ws c = true) suf
    ∧ (∀ c, head (trim s) = Some c → is_ws c = false)
    ∧ (∀ c, last (trim s) = Some c → is_ws c = false).
Proof.
  destruct (trimStart_split s) as (pre & Hs & Hpre).
  destruct (trimEnd_split (trimStart s)) as (suf & Ht & Hsuf).
  exists pre, suf. unfold trim. repeat split; try done.
  - by rewrite <- Ht.
  - intros c Hc. apply (trimStart_head s).
    rewrite Ht. rewrite head_app. by rewrite Hc.
  - apply trimEnd_last.
Qed.

Lemma trim_fixed (s : jsstring) :
  Forall (λ c, is_ws c = false) s → trim s = s.
Proof.
  intros H. unfold trim. rewrite trimStart_fixed.
  - apply trimEnd_fixed. intros c Hc.
    apply last_Some_elem_of in Hc. by rewrite Forall_forall in H; apply H.
  - intros c Hc.
    apply head_Some_elem_of in Hc. by rewrite Forall_forall in H; apply H.
Qed.

End Trim.

Section Decimal.

Lemma show_digits d : Forall (λ c, (48 ≤ c ≤ 57)%N) (Dec.show d).
Proof. induction d; simpl; constructor; (lia || done). Qed.

Lemma digit_not_ws c : (48 ≤ c ≤ 57)%N → is_ws c = false.
Proof.
  intros H. unfold is_ws.
  assert (Hlo : (c <=? 13)%N = false) by (apply N.leb_gt; lia).
  assert (Hhi : (8192 <=? c)%N = false) by (apply N.leb_gt; lia).
  assert (Hsp : (c =? 32)%N = false) by (apply N.eqb_neq; lia).
  assert (Hne : ∀ n, (57 < n)%N → (c =? n)%N = false)
    by (intros n Hn; apply N.eqb_neq; lia).
  rewrite Hlo, Hhi, Hsp, !Hne by lia.
  by rewrite andb_false_r.
Qed.

Lemma read_show d : Dec.read (Dec.show d) = Some d.
Proof. induction d; simpl; [done | by rewrite IHd ..]. Qed.

Lemma show_nonempty d : d ≠ Nil → Dec.show d ≠ [].
Proof. by destruct d. Qed.

Lemma to_int_nonnil z : match Z.to_int z with Pos d | Neg d => d ≠ Nil end.
Proof.
  destruct z; simpl; [done | apply Unsigned.to_uint_nonnil ..].
Qed.

Lemma show_int_nonempty z : Dec.show_int z ≠ [].
Proof.
  unfold Dec.show_int. pose proof (to_int_nonnil z) as H.
  destruct (Z.to_int z); [by apply show_nonempty | done].
Qed.

Lemma show_int_no_ws z : Forall (λ c, is_ws c = false) (Dec.show_int z).
Proof.
  unfold Dec.show_int.
  destruct (Z.to_int z); [|constructor; [done|]];
    (eapply Forall_impl; [apply show_digits | apply digit_not_ws]).
Qed.

(** Reading back what was printed. *)
Lemma read_show_int z : Dec.read_int (Dec.show_int z) = Some z.
Proof.
  unfold Dec.show_int, Dec.read_int.
  pose proof (to_int_nonnil z) as Hnil.
  pose proof (DecimalZ.of_to z) as Hz.
  destruct (Z.to_int z) as [d|d]; simpl in Hz.
  - pose proof (show_digits d) as Hd. pose proof (read_show d) as Hr.
    destruct (Dec.show d) as [|c r] eqn:E; [by destruct d|].
    apply Forall_cons in Hd as [Hc _].
    destruct (N.eqb_spec c 45); [lia|]. destruct (N.eqb_spec c 43); [lia|].
    rewrite Hr. simpl. by rewrite Hz.
  - simpl. rewrite read_show. pose proof (show_nonempty d Hnil).
    destruct (Dec.show d); [done|]. simpl. by rewrite Hz.
Qed.

(** An identifier written into the page and read back by [Number] is
    the same identifier. *)
Lemma Number_show_int z :
  Z.abs z ≤ MAX_EXACT → Number_ (Dec.show_int z) = NInt z.
Proof.
  intros Hz. unfold Number_.
  rewrite (trim_fixed _ (show_int_no_ws z)), read_show_int.
  pose proof (show_int_nonempty z).
  destruct (Dec.show_int z); [done|].
  by destruct (Z.leb_spec (Z.abs z) MAX_EXACT); [|lia].
Qed.

Lemma Number_empty : Number_ [] = NInt 0.
Proof. reflexivity. Qed.

End Decimal.

(** * Running the handlers *)

Lemma set_innerText_twice a b el :
  set_innerText a (set_innerText b el) = set_innerText a el.
Proof. reflexivity. Qed.

Ltac unfold_script :=
  unfold saveTokenBtn_click, updateBioBtn_click, deleteTokenBtn_click,
    try_catch, json_of, console_error, alert, location_reload;
  unfold mbind, M_bind, mret, M_ret, getElementById, read, write,
    assign_innerText, fetch, lift, emit, confirm.

Ltac run_step :=
  first
    [ progress cbn beta iota zeta delta
        [document trace get truthy to_DOMString ToString negb]
    | rewrite lookup_insert_eq
    | rewrite lookup_insert_ne by done
    | rewrite insert_insert_eq
    | rewrite set_innerText_twice
    | match goal with
      | H : ?x = _ |- context [match ?x with _ => _ end] => rewrite H
      | H : ?x = _ |- context [truthy ?x] => rewrite H
      | H : ?x = _ |- context [error_text _ ?x] => rewrite H
      | H : ?x = _ |- context [to_DOMString ?x] => rewrite H
      | H : user ?e ?m = _ |- context [user ?e ?m] => rewrite H
      end ].

Ltac run := unfold_script; repeat run_step.

(** ** The text appended to a failure message *)

Lemma error_text_string j (s : jsstring) :
  s ≠ [] → error_text j (Some (JStr s)) = Ok s.
Proof. by destruct s. Qed.

Lemma error_text_empty j : error_text j (Some (JStr [])) = Ok (JSON_stringify j).
Proof. reflexivity. Qed.

Lemma error_text_absent j : error_text j None = Ok (JSON_stringify j).
Proof. reflexivity. Qed.

(** No value is dumped as the empty text. *)
Lemma JSON_stringify_nonempty j : JSON_stringify j ≠ [].
Proof.
  destruct j as [|[]| | | |]; try done.
  apply show_int_nonempty.
Qed.

(** ** Save *)

Section Save.

Variables (ε : env) (w : world) (tok lab res : element).
Hypothesis Htok : document w !! "token" = Some tok.
Hypothesis Hlab : document w !! "label" = Some lab.
Hypothesis Hres : document w !! "saveResult" = Some res.

Let rq : request :=
  save_request (trim (value tok)) (or_else (trim (value lab)) (js "default")).

Lemma save_transport_failure e :
  transport_error (service ε rq) = Some e →
  saveTokenBtn_click ε w =
    (Ok tt,
     World (<["saveResult" := set_innerText Msg.connection res]> (document w))
           (trace w ++ [Fetched rq; Logged e])).
Proof.
  intros He. subst rq. run.
  destruct (service ε _) as [d|[d|j]]; simplify_eq/=; run;
    by rewrite <- app_assoc.
Qed.

Lemma save_rejected props detail :
  service ε rq = Responded (Json (JObj props)) →
  own props (js "ok") = Some (JBool false) →
  error_text (JObj props) (own props (js "error")) = Ok detail →
  saveTokenBtn_click ε w =
    (Ok tt,
     World (<["saveResult" := set_innerText (Msg.save_failed ++ detail) res]>
              (document w))
           (trace w ++ [Fetched rq])).
Proof. intros Hsrv Hok Herr. subst rq. by run. Qed.

Lemma save_rejected_throwing props e :
  service ε rq = Responded (Json (JObj props)) →
  own props (js "ok") = Some (JBool false) →
  error_text (JObj props) (own props (js "error")) = Throw e →
  saveTokenBtn_click ε w =
    (Ok tt,
     World (<["saveResult" := set_innerText Msg.connection res]> (document w))
           (trace w ++ [Fetched rq; Logged e])).
Proof. intros Hsrv Hok Herr. subst rq. run. by rewrite <- app_assoc. Qed.

End Save.

Section SaveAccepted.

Variables (ε : env) (w : world) (tok lab res tid s1 db : element).
Hypothesis Htok : document w !! "token" = Some tok.
Hypothesis Hlab : document w !! "label" = Some lab.
Hypothesis Hres : document w !! "saveResult" = Some res.
Hypothesis Htid : document w !! "tokenId" = Some tid.
Hypothesis Hs1 : document w !! "step1" = Some s1.
Hypothesis Hdb : document w !! "dashboard" = Some db.

Lemma save_accepted props id text :
  service ε (save_request (trim (value tok))
               (or_else (trim (value lab)) (js "default")))
    = Responded (Json (JObj props)) →
  own props (js "ok") = Some (JBool true) →
  own props (js "id") = id →
  to_DOMString id = Ok text →
  saveTokenBtn_click ε w =
    (Ok tt,
     World
       (<["dashboard" := classList_remove "hidden" db]>
          (<["step1" := classList_add "hidden" s1]>
             (<["tokenId" := set_innerText text tid]>
                (<["saveResult" := set_innerText Msg.saved res]>
                   (document w)))))
       (trace w ++ [Fetched (save_request (trim (value tok))
                               (or_else (trim (value lab)) (js "default")))])).
Proof. intros Hsrv Hok Hid Htext. subst id. by run. Qed.

End SaveAccepted.

Lemma hidden_add el : hidden (classList_add "hidden" el) = true.
Proof. unfold hidden. apply bool_decide_eq_true. simpl. set_solver. Qed.

Lemma hidden_remove el : hidden (classList_remove "hidden" el) = false.
Proof.
  unfold hidden. apply bool_decide_eq_false. simpl.
  rewrite elem_of_difference, elem_of_singleton. by intros [_ []].
Qed.

Lemma view_of_Some (d : gmap string element) v :
  view_of d = Some v →
  ∃ s b, d !! "step1" = Some s ∧ d !! "dashboard" = Some b.
Proof.
  unfold view_of. intros H.
  destruct (d !! "step1") as [s|]; [|done].
  destruct (d !! "dashboard") as [b|]; [|done].
  by exists s, b.
Qed.

Lemma view_of_dashboard (d : gmap string element) s b :
  view_of (<["dashboard" := classList_remove "hidden" b]>
             (<["step1" := classList_add "hidden" s]> d)) = Some Dashboard.
Proof.
  unfold view_of.
  rewrite (lookup_insert_ne _ "dashboard" "step1") by done.
  rewrite !lookup_insert_eq. simpl.
  by rewrite hidden_add, hidden_remove.
Qed.

(** Case analysis on what the script cannot know in advance: whether an
    element exists, what the service answers, what the answer holds. *)
Ltac case_step :=
  match goal with
  | |- context [match document ?w !! ?k with _ => _ end] =>
    destruct (document w !! k) eqn:?
  | |- context [match service ?e ?r with _ => _ end] =>
    destruct (service e r) as [?|[?|[]]] eqn:?
  | |- context [if truthy ?x then _ else _] => destruct (truthy x) eqn:?
  | |- context [match error_text ?j ?x with _ => _ end] =>
    destruct (error_text j x) eqn:?
  | |- context [match to_DOMString ?x with _ => _ end] =>
    destruct (to_DOMString x) eqn:?
  | |- context [user ?e ?m] => destruct (user e m) eqn:?
  end.

Ltac explore := unfold_script; repeat (run_step || case_step).

(** Whatever the page and the service, the only request a click on the
    save button can send is the one built from the two inputs. *)
Lemma save_requests ε w :
  ∃ evs,
    trace (saveTokenBtn_click ε w).2 = trace w ++ evs
    ∧ ∀ rq, Fetched rq ∈ evs →
        ∃ tok lab,
          document w !! "token" = Some tok
          ∧ document w !! "label" = Some lab
          ∧ rq = save_request (trim (value tok))
                   (or_else (trim (value lab)) (js "default")).
Proof.
  explore; cbn [snd trace]; rewrite <- ?app_assoc;
    (eexists; split; [first [reflexivity | symmetry; apply app_nil_r] | ]);
    intros rq' Hin;
    repeat (apply elem_of_cons in Hin as [Hin|Hin]; [simplify_eq|]);
    try (by apply elem_of_nil in Hin); eauto.
Qed.

Lemma view_of_insert_other (d : gmap string element) k el :
  k ≠ "step1" → k ≠ "dashboard" → view_of (<[k := el]> d) = view_of d.
Proof. intros H1 H2. unfold view_of. by rewrite !lookup_insert_ne. Qed.

(** ** Update *)

Section Update.

Variables (ε : env) (w : world) (tid nb ur : element).
Hypothesis Htid : document w !! "tokenId" = Some tid.
Hypothesis Hnb : document w !! "newBio" = Some nb.
Hypothesis Hur : document w !! "updateResult" = Some ur.

Let rq : request := update_request (Number_ (innerText tid)) (value nb).

Lemma update_transport_failure e :
  transport_error (service ε rq) = Some e →
  updateBioBtn_click ε w =
    (Ok tt,
     World (<["updateResult" := set_innerText Msg.connection ur]> (document w))
           (trace w ++ [Fetched rq; Logged e])).
Proof.
  intros He. subst rq. run.
  destruct (service ε _) as [d|[d|j]]; simplify_eq/=; run;
    by rewrite <- app_assoc.
Qed.

Lemma update_accepted props db :
  document w !! "displayBio" = Some db →
  service ε rq = Responded (Json (JObj props)) →
  own props (js "ok") = Some (JBool true) →
  updateBioBtn_click ε w =
    (Ok tt,
     World (<["displayBio" := set_innerText (value nb) db]>
              (<["updateResult" := set_innerText Msg.updated ur]> (document w)))
           (trace w ++ [Fetched rq])).
Proof. intros Hdb Hsrv Hok. subst rq. by run. Qed.

Lemma update_rejected props detail :
  service ε rq = Responded (Json (JObj props)) →
  own props (js "ok") = Some (JBool false) →
  error_text (JObj props) (own props (js "error")) = Ok detail →
  updateBioBtn_click ε w =
    (Ok tt,
     World (<["updateResult" := set_innerText (Msg.update_failed ++ detail) ur]>
              (document w))
           (trace w ++ [Fetched rq])).
Proof. intros Hsrv Hok Herr. subst rq. by run. Qed.

(** The request goes out whatever the identifier text is. *)
Lemma update_fetches :
  ∃ rest, trace (updateBioBtn_click ε w).2 = trace w ++ Fetched rq :: rest.
Proof.
  subst rq. explore; cbn [snd trace]; rewrite <- ?app_assoc;
    by eexists.
Qed.

End Update.

(** ** Delete *)

Section Delete.

Variables (ε : env) (w : world).

Lemma delete_declined :
  user ε Msg.ask_delete = false →
  deleteTokenBtn_click ε w =
    match document w !! "tokenId" with
    | Some _ =>
      (Ok tt, World (document w) (trace w ++ [Asked Msg.ask_delete false]))
    | None => (Throw null_access, w)
    end.
Proof. intros Hno. run. case_step; by run. Qed.

Variable tid : element.
Hypothesis Htid : document w !! "tokenId" = Some tid.
Hypothesis Hyes : user ε Msg.ask_delete = true.

Let rq : request := delete_request (Number_ (innerText tid)).

Lemma delete_transport_failure e :
  transport_error (service ε rq) = Some e →
  deleteTokenBtn_click ε w =
    (Ok tt,
     World (document w)
           (trace w ++ [Asked Msg.ask_delete true; Fetched rq;
                        Alerted Msg.delete_error])).
Proof.
  intros He. subst rq. run.
  destruct (service ε _) as [d|[d|j]]; simplify_eq/=; run;
    by rewrite <- !app_assoc.
Qed.

Lemma delete_accepted props :
  service ε rq = Responded (Json (JObj props)) →
  own props (js "ok") = Some (JBool true) →
  deleteTokenBtn_click ε w =
    (Ok tt,
     World (document w)
           (trace w ++ [Asked Msg.ask_delete true; Fetched rq;
                        Alerted Msg.deleted; Reloaded])).
Proof. intros Hsrv Hok. subst rq. run. by rewrite <- !app_assoc. Qed.

Lemma delete_fetches :
  ∃ rest,
    trace (deleteTokenBtn_click ε w).2
    = trace w ++ Asked Msg.ask_delete true :: Fetched rq :: rest.
Proof.
  subst rq. explore; cbn [snd trace]; rewrite <- ?app_assoc;
    by eexists.
Qed.

End Delete.

(** A click whose handler asked for a reload leaves the page as the markup
    describes it. *)
Lemma click_reloading markup handler ε w r d evs :
  handler ε w = (r, World d (trace w ++ evs)) →
  existsb is_reload evs = true →
  click markup handler ε w = (r, World markup (trace w ++ evs)).
Proof.
  intros Hrun Hre. unfold click. rewrite Hrun. cbn [trace].
  by rewrite drop_app_length, Hre.
Qed.

(** * The claims of the specification *)

(** C1.  A save answered [{ok: true, id: z}], with [z] an integer a double
    holds exactly, ends normally; the identifier element holds the decimal
    text of [z], which the later handlers read back as [z]; the status
    shows the success message; [step1] gains the class [hidden] and
    [dashboard] loses it, nothing else in the page changes, so a page in
    the Setup view is in the Dashboard view afterwards; and the only effect
    outside the page is the one request. *)
Theorem save_success_enters_dashboard
    ε w (tok lab res tid : element) props z :
  document w !! "token" = Some tok →
  document w !! "label" = Some lab →
  document w !! "saveResult" = Some res →
  document w !! "tokenId" = Some tid →
  view_of (document w) = Some Setup →
  service ε (save_request (trim (value tok))
               (or_else (trim (value lab)) (js "default")))
    = Responded (Json (JObj props)) →
  own props (js "ok") = Some (JBool true) →
  own props (js "id") = Some (JNum z) →
  Z.abs z ≤ MAX_EXACT →
  ∃ (s1 db : element) w',
    document w !! "step1" = Some s1
    ∧ document w !! "dashboard" = Some db
    ∧ saveTokenBtn_click ε w = (Ok tt, w')
    ∧ document w' =
        <["dashboard" := classList_remove "hidden" db]>
          (<["step1" := classList_add "hidden" s1]>
             (<["tokenId" := set_innerText (Dec.show_int z) tid]>
                (<["saveResult" := set_innerText Msg.saved res]> (document w))))
    ∧ trace w' =
        trace w ++ [Fetched (save_request (trim (value tok))
                               (or_else (trim (value lab)) (js "default")))]
    ∧ session_text (document w') = Some (Dec.show_int z)
    ∧ session (document w') = Some (NInt z)
    ∧ view_of (document w') = Some Dashboard.
Proof.
  intros Htok Hlab Hres Htid Hsetup Hsrv Hok Hid Hz.
  destruct (view_of_Some _ _ Hsetup) as (s1 & db & Hs1 & Hdb).
  exists s1, db. eexists. split; [done|]. split; [done|]. split.
  { eapply save_accepted; eauto. }
  cbn [document trace].
  assert (Htext : session_text
            (<["dashboard" := classList_remove "hidden" db]>
               (<["step1" := classList_add "hidden" s1]>
                  (<["tokenId" := set_innerText (Dec.show_int z) tid]>
                     (<["saveResult" := set_innerText Msg.saved res]>
                        (document w)))))
          = Some (Dec.show_int z)).
  { unfold session_text.
    rewrite (lookup_insert_ne _ "dashboard" "tokenId") by done.
    rewrite (lookup_insert_ne _ "step1" "tokenId") by done.
    by rewrite lookup_insert_eq. }
  repeat split; try done.
  - unfold session. rewrite Htext. simpl. by rewrite Number_show_int.
  - apply view_of_dashboard.
Qed.

Lemma save_success_enters_dashboard_witness :
  ∃ (s1 db : element) w',
    document Sample.start !! "step1" = Some s1
    ∧ document Sample.start !! "dashboard" = Some db
    ∧ saveTokenBtn_click (Sample.answering Sample.saved42 true) Sample.start
      = (Ok tt, w')
    ∧ document w' =
        <["dashboard" := classList_remove "hidden" db]>
          (<["step1" := classList_add "hidden" s1]>
             (<["tokenId" := set_innerText (Dec.show_int 42) Sample.blank]>
                (<["saveResult" := set_innerText Msg.saved Sample.blank]>
                   (document Sample.start))))
    ∧ trace w' =
        trace Sample.start
        ++ [Fetched (save_request (trim (value (Sample.input "  abc  ")))
                       (or_else (trim (value (Sample.input " "))) (js "default")))]
    ∧ session_text (document w') = Some (Dec.show_int 42)
    ∧ session (document w') = Some (NInt 42)
    ∧ view_of (document w') = Some Dashboard.
Proof.
  apply (save_success_enters_dashboard
           (Sample.answering Sample.saved42 true) Sample.start
           (Sample.input "  abc  ") (Sample.input " ") Sample.blank
           Sample.blank [(js "ok", JBool true); (js "id", JNum 42)] 42);
    try reflexivity.
  vm_compute. discriminate.
Defined.

(** C4.  A save answered [{ok: false, ...}] ends normally and changes
    nothing in the page but the text of the status element: the view is the
    one it was (Setup stays Setup), the identifier text is untouched; and
    when the answer carries an [error] text, the status text contains it. *)
Theorem save_failure_stays_in_setup ε w (tok lab res : element) props :
  document w !! "token" = Some tok →
  document w !! "label" = Some lab →
  document w !! "saveResult" = Some res →
  service ε (save_request (trim (value tok))
               (or_else (trim (value lab)) (js "default")))
    = Responded (Json (JObj props)) →
  own props (js "ok") = Some (JBool false) →
  ∃ shown rest,
    saveTokenBtn_click ε w =
      (Ok tt,
       World (<["saveResult" := set_innerText shown res]> (document w))
             (trace w ++ Fetched (save_request (trim (value tok))
                                    (or_else (trim (value lab)) (js "default")))
                           :: rest))
    ∧ view_of (<["saveResult" := set_innerText shown res]> (document w))
      = view_of (document w)
    ∧ session_text (<["saveResult" := set_innerText shown res]> (document w))
      = session_text (document w)
    ∧ (∀ s, own props (js "error") = Some (JStr s) →
         ∃ before after, shown = before ++ s ++ after).
Proof.
  intros Htok Hlab Hres Hsrv Hok.
  destruct (error_text (JObj props) (own props (js "error")))
    as [detail|e] eqn:Herr.
  - exists (Msg.save_failed ++ detail), []. split.
    { eapply save_rejected; eauto. }
    split; [by apply view_of_insert_other|].
    split; [unfold session_text; by rewrite lookup_insert_ne|].
    intros s Hs. rewrite Hs in Herr. destruct s as [|c s].
    + exists (Msg.save_failed ++ detail), []. by rewrite !app_nil_r.
    + exists Msg.save_failed, []. simpl in Herr. simplify_eq.
      by rewrite app_nil_r.
  - exists Msg.connection, [Logged e]. split.
    { eapply save_rejected_throwing; eauto. }
    split; [by apply view_of_insert_other|].
    split; [unfold session_text; by rewrite lookup_insert_ne|].
    intros s Hs. rewrite Hs in Herr. by destruct s.
Qed.

Lemma save_failure_stays_in_setup_witness :
  ∃ shown rest,
    saveTokenBtn_click (Sample.answering Sample.dup true) Sample.start =
      (Ok tt,
       World (<["saveResult" := set_innerText shown Sample.blank]>
                (document Sample.start))
             (trace Sample.start
              ++ Fetched (save_request (trim (value (Sample.input "  abc  ")))
                            (or_else (trim (value (Sample.input " ")))
                               (js "default")))
                 :: rest))
    ∧ view_of (<["saveResult" := set_innerText shown Sample.blank]>
                 (document Sample.start))
      = view_of (document Sample.start)
    ∧ session_text (<["saveResult" := set_innerText shown Sample.blank]>
                      (document Sample.start))
      = session_text (document Sample.start)
    ∧ (∀ s, own [(js "ok", JBool false); (js "error", JStr (js "dup"))]
              (js "error") = Some (JStr s) →
         ∃ before after, shown = before ++ s ++ after).
Proof.
  apply (save_failure_stays_in_setup
           (Sample.answering Sample.dup true) Sample.start
           (Sample.input "  abc  ") (Sample.input " ") Sample.blank
           [(js "ok", JBool false); (js "error", JStr (js "dup"))]);
    reflexivity.
Defined.

Example save_dup_message :
  innerText <$>
    document (saveTokenBtn_click (Sample.answering Sample.dup true)
                Sample.start).2 !! "saveResult"
  = Some (js "خطأ: dup").
Proof. vm_compute. reflexivity. Qed.

(** C5.  Whatever the page and the service, a request sent by a click on
    the save button carries as [token] the text of the token input without
    the white space at its two ends: the input is a run of white space,
    then the token, then a run of white space, and the token neither
    starts nor ends with white space. *)
Theorem save_sends_trimmed_token ε w rq :
  Fetched rq ∈ drop (length (trace w)) (trace (saveTokenBtn_click ε w).2) →
  ∃ (tok : element) (token label pre suf : jsstring),
    document w !! "token" = Some tok
    ∧ body rq = SaveRequest token label
    ∧ token = trim (value tok)
    ∧ value tok = pre ++ token ++ suf
    ∧ Forall (λ c, is_ws c = true) pre
    ∧ Forall (λ c, is_ws c = true) suf
    ∧ (∀ c, head token = Some c → is_ws c = false)
    ∧ (∀ c, last token = Some c → is_ws c = false).
Proof.
  destruct (save_requests ε w) as (evs & Htrace & Hevs).
  rewrite Htrace, drop_app_length. intros Hin.
  destruct (Hevs rq Hin) as (tok & lab & Htok & _ & ->).
  destruct (trim_spec (value tok)) as (pre & suf & Hsplit & Hpre & Hsuf & Hhd & Hlast).
  exists tok, (trim (value tok)),
    (or_else (trim (value lab)) (js "default")), pre, suf.
  by repeat split.
Qed.

Lemma save_sends_trimmed_token_witness :
  ∃ (tok : element) (token label pre suf : jsstring),
    document Sample.start !! "token" = Some tok
    ∧ body (save_request (js "abc") (js "default")) = SaveRequest token label
    ∧ token = trim (value tok)
    ∧ value tok = pre ++ token ++ suf
    ∧ Forall (λ c, is_ws c = true) pre
    ∧ Forall (λ c, is_ws c = true) suf
    ∧ (∀ c, head token = Some c → is_ws c = false)
    ∧ (∀ c, last token = Some c → is_ws c = false).
Proof.
  apply (save_sends_trimmed_token (Sample.answering Sample.saved42 true)
           Sample.start (save_request (js "abc") (js "default"))).
  vm_compute. apply list_elem_of_here.
Defined.

(** C6.  When the label input is blank after trimming, a request sent by a
    click on the save button carries the label [default]. *)
Theorem save_blank_label_defaults ε w (lab : element) rq :
  document w !! "label" = Some lab →
  trim (value lab) = [] →
  Fetched rq ∈ drop (length (trace w)) (trace (saveTokenBtn_click ε w).2) →
  ∃ token, body rq = SaveRequest token (js "default").
Proof.
  intros Hlab Hblank.
  destruct (save_requests ε w) as (evs & Htrace & Hevs).
  rewrite Htrace, drop_app_length. intros Hin.
  destruct (Hevs rq Hin) as (tok & lab' & _ & Hlab' & ->).
  assert (lab' = lab) as -> by congruence.
  rewrite Hblank. by eexists.
Qed.

Lemma save_blank_label_defaults_witness :
  ∃ token,
    body (save_request (js "abc") (js "default"))
    = SaveRequest token (js "default").
Proof.
  apply (save_blank_label_defaults (Sample.answering Sample.saved42 true)
           Sample.start (Sample.input " ")
           (save_request (js "abc") (js "default"))).
  - reflexivity.
  - reflexivity.
  - vm_compute. apply list_elem_of_here.
Defined.

(** C7.  An update answered [{ok: true, ...}] ends normally, shows the
    success message and sets the text of [displayBio] to the value of the
    [newBio] input as it is, not trimmed, the empty text included. *)
Theorem update_success_shows_new_bio ε w (tid nb ur db : element) props :
  document w !! "tokenId" = Some tid →
  document w !! "newBio" = Some nb →
  document w !! "updateResult" = Some ur →
  document w !! "displayBio" = Some db →
  service ε (update_request (Number_ (innerText tid)) (value nb))
    = Responded (Json (JObj props)) →
  own props (js "ok") = Some (JBool true) →
  ∃ w',
    updateBioBtn_click ε w = (Ok tt, w')
    ∧ document w' =
        <["displayBio" := set_innerText (value nb) db]>
          (<["updateResult" := set_innerText Msg.updated ur]> (document w))
    ∧ innerText <$> document w' !! "displayBio" = Some (value nb)
    ∧ trace w' =
        trace w
        ++ [Fetched (update_request (Number_ (innerText tid)) (value nb))].
Proof.
  intros Htid Hnb Hur Hdb Hsrv Hok. eexists. split.
  { eapply update_accepted; eauto. }
  cbn [document trace]. repeat split.
  by rewrite lookup_insert_eq.
Qed.

Lemma update_success_shows_new_bio_witness :
  ∃ w',
    updateBioBtn_click (Sample.answering Sample.accepted true) Sample.start
      = (Ok tt, w')
    ∧ document w' =
        <["displayBio" := set_innerText (value (Sample.input " hi "))
                            Sample.blank]>
          (<["updateResult" := set_innerText Msg.updated Sample.blank]>
             (document Sample.start))
    ∧ innerText <$> document w' !! "displayBio"
      = Some (value (Sample.input " hi "))
    ∧ trace w' =
        trace Sample.start
        ++ [Fetched (update_request (Number_ (innerText Sample.blank))
                       (value (Sample.input " hi ")))].
Proof.
  apply (update_success_shows_new_bio
           (Sample.answering Sample.accepted true) Sample.start
           Sample.blank (Sample.input " hi ") Sample.blank Sample.blank
           [(js "ok", JBool true)]);
    reflexivity.
Defined.

Example update_empty_bio :
  innerText <$>
    document (updateBioBtn_click (Sample.answering Sample.accepted true)
                (World (<["newBio" := Sample.blank]>
                          (<["displayBio" := Sample.input "old"]> Sample.page))
                       [])).2 !! "displayBio"
  = Some [].
Proof. vm_compute. reflexivity. Qed.

(** C8.  When the user declines the confirmation, a click on the delete
    button leaves the page as it was and sends nothing: the only effect is
    the confirmation dialog itself, and the handler ends normally (it only
    throws, before asking, when the page has no [tokenId] element). *)
Theorem delete_declined_is_noop ε w :
  user ε Msg.ask_delete = false →
  ∃ r w',
    deleteTokenBtn_click ε w = (r, w')
    ∧ document w' = document w
    ∧ (∀ ev, ev ∈ drop (length (trace w)) (trace w') →
         ev = Asked Msg.ask_delete false)
    ∧ (∀ rq, Fetched rq ∉ drop (length (trace w)) (trace w'))
    ∧ (is_Some (document w !! "tokenId") → r = Ok tt).
Proof.
  intros Hno. rewrite (delete_declined ε w Hno).
  destruct (document w !! "tokenId") as [tid|].
  - eexists _, _. split; [reflexivity|]. cbn [document trace].
    rewrite drop_app_length. repeat split.
    + intros ev Hev. by apply list_elem_of_singleton in Hev.
    + intros rq Hrq. by apply list_elem_of_singleton in Hrq.
  - eexists _, _. split; [reflexivity|].
    rewrite drop_all. repeat split.
    + intros ev Hev. by apply elem_of_nil in Hev.
    + intros rq Hrq. by apply elem_of_nil in Hrq.
    + by intros [? ?].
Qed.

Lemma delete_declined_is_noop_witness :
  ∃ r w',
    deleteTokenBtn_click (Sample.offline false) Sample.start = (r, w')
    ∧ document w' = document Sample.start
    ∧ (∀ ev, ev ∈ drop (length (trace Sample.start)) (trace w') →
         ev = Asked Msg.ask_delete false)
    ∧ (∀ rq, Fetched rq ∉ drop (length (trace Sample.start)) (trace w'))
    ∧ (is_Some (document Sample.start !! "tokenId") → r = Ok tt).
Proof.
  apply (delete_declined_is_noop (Sample.offline false) Sample.start).
  reflexivity.
Defined.

(** C9.  A confirmed delete answered [{ok: true, ...}] ends normally
    after, in this order, the confirmation, the request, the alert that the
    token was deleted and the call of [location.reload()]; the page itself
    is not touched by the handler.  Once the browser has reloaded, the
    document is the markup's again: with a markup whose identifier element
    is empty and which starts in the Setup view, the session identifier is
    unset (read back as [0]) and the view is Setup. *)
Theorem delete_success_reloads ε w (tid : element) props markup :
  document w !! "tokenId" = Some tid →
  user ε Msg.ask_delete = true →
  service ε (delete_request (Number_ (innerText tid)))
    = Responded (Json (JObj props)) →
  own props (js "ok") = Some (JBool true) →
  session_text markup = Some [] →
  view_of markup = Some Setup →
  deleteTokenBtn_click ε w =
    (Ok tt,
     World (document w)
           (trace w ++ [Asked Msg.ask_delete true;
                        Fetched (delete_request (Number_ (innerText tid)));
                        Alerted Msg.deleted; Reloaded]))
  ∧ ∃ w',
      click markup deleteTokenBtn_click ε w = (Ok tt, w')
      ∧ document w' = markup
      ∧ session_text (document w') = Some []
      ∧ session (document w') = Some (NInt 0)
      ∧ view_of (document w') = Some Setup.
Proof.
  intros Htid Hyes Hsrv Hok Hunset Hsetup.
  pose proof (delete_accepted ε w tid Htid Hyes props Hsrv Hok) as Hrun.
  split; [done|]. eexists. split.
  { eapply click_reloading; [exact Hrun | reflexivity]. }
  cbn [document]. repeat split; try done.
  unfold session. by rewrite Hunset.
Qed.

Lemma delete_success_reloads_witness :
  deleteTokenBtn_click (Sample.answering Sample.accepted true) Sample.start =
    (Ok tt,
     World (document Sample.start)
           (trace Sample.start
            ++ [Asked Msg.ask_delete true;
                Fetched (delete_request (Number_ (innerText Sample.blank)));
                Alerted Msg.deleted; Reloaded]))
  ∧ ∃ w',
      click Sample.page deleteTokenBtn_click
        (Sample.answering Sample.accepted true) Sample.start = (Ok tt, w')
      ∧ document w' = Sample.page
      ∧ session_text (document w') = Some []
      ∧ session (document w') = Some (NInt 0)
      ∧ view_of (document w') = Some Setup.
Proof.
  apply (delete_success_reloads (Sample.answering Sample.accepted true)
           Sample.start Sample.blank [(js "ok", JBool true)] Sample.page);
    reflexivity.
Defined.

Example delete_after_save_resets :
  let '(_, w1) := click Sample.page saveTokenBtn_click
                    (Sample.answering Sample.saved42 true) Sample.start in
  let '(_, w2) := click Sample.page deleteTokenBtn_click
                    (Sample.answering Sample.accepted true) w1 in
  (session (document w1), view_of (document w1),
   session (document w2), view_of (document w2))
  = (Some (NInt 42), Some Dashboard, Some (NInt 0), Some Setup).
Proof. vm_compute. reflexivity. Qed.

(** C10.  With an empty identifier text nothing stops the two later
    handlers: a click on the update button sends its request with [id]
    equal to [0], and so does a click on the delete button once the user
    has confirmed. *)
Theorem unset_session_sends_zero ε w (tid : element) :
  document w !! "tokenId" = Some tid →
  innerText tid = [] →
  (∀ nb ur : element,
     document w !! "newBio" = Some nb →
     document w !! "updateResult" = Some ur →
     ∃ rest,
       trace (updateBioBtn_click ε w).2
       = trace w ++ Fetched (update_request (NInt 0) (value nb)) :: rest)
  ∧ (user ε Msg.ask_delete = true →
     ∃ rest,
       trace (deleteTokenBtn_click ε w).2
       = trace w ++ Asked Msg.ask_delete true
                  :: Fetched (delete_request (NInt 0)) :: rest).
Proof.
  intros Htid Hempty. split.
  - intros nb ur Hnb Hur.
    destruct (update_fetches ε w tid nb ur Htid Hnb Hur) as [rest Hrest].
    exists rest. by rewrite Hrest, Hempty.
  - intros Hyes.
    destruct (delete_fetches ε w tid Htid Hyes) as [rest Hrest].
    exists rest. by rewrite Hrest, Hempty.
Qed.

Lemma unset_session_sends_zero_witness :
  (∃ rest,
     trace (updateBioBtn_click (Sample.offline true) Sample.start).2
     = trace Sample.start
       ++ Fetched (update_request (NInt 0) (value (Sample.input " hi ")))
          :: rest)
  ∧ (∃ rest,
       trace (deleteTokenBtn_click (Sample.offline true) Sample.start).2
       = trace Sample.start
         ++ Asked Msg.ask_delete true
            :: Fetched (delete_request (NInt 0)) :: rest).
Proof.
  destruct (unset_session_sends_zero (Sample.offline true) Sample.start
              Sample.blank eq_refl eq_refl) as [Hupdate Hdelete].
  split.
  - exact (Hupdate (Sample.input " hi ") Sample.blank eq_refl eq_refl).
  - exact (Hdelete eq_refl).
Defined.

(** C2, as stated, fails for the delete button: with the service out of
    reach the handler shows its alert and ends, and nothing at all goes to
    the console. *)
Lemma delete_transport_failure_not_logged :
  transport_error
    (service (Sample.offline true) (delete_request (NInt 0)))
    = Some (NetworkError Sample.unreachable)
  ∧ deleteTokenBtn_click (Sample.offline true) Sample.start =
      (Ok tt,
       World Sample.page
             [Asked Msg.ask_delete true; Fetched (delete_request (NInt 0));
              Alerted Msg.delete_error])
  ∧ ¬ ∃ e, Logged e ∈ trace (deleteTokenBtn_click (Sample.offline true)
                               Sample.start).2.
Proof.
  split; [reflexivity|]. split; [by vm_compute|].
  intros [e He]. vm_compute in He.
  repeat (apply elem_of_cons in He as [He|He]; [discriminate|]).
  by apply elem_of_nil in He.
Qed.

(** C2, amended.  When the request cannot complete or its answer is not
    JSON, each handler ends normally and the error itself is never shown.
    Save and update put the fixed text [Msg.connection] in their status
    element and pass the error to [console.error]; a confirmed delete shows
    the fixed alert [Msg.delete_error] and logs nothing. *)
Theorem transport_failure_generic_message ε w e :
  (∀ tok lab res : element,
     document w !! "token" = Some tok →
     document w !! "label" = Some lab →
     document w !! "saveResult" = Some res →
     transport_error
       (service ε (save_request (trim (value tok))
                     (or_else (trim (value lab)) (js "default")))) = Some e →
     saveTokenBtn_click ε w =
       (Ok tt,
        World (<["saveResult" := set_innerText Msg.connection res]> (document w))
              (trace w
               ++ [Fetched (save_request (trim (value tok))
                              (or_else (trim (value lab)) (js "default")));
                   Logged e])))
  ∧ (∀ tid nb ur : element,
       document w !! "tokenId" = Some tid →
       document w !! "newBio" = Some nb →
       document w !! "updateResult" = Some ur →
       transport_error
         (service ε (update_request (Number_ (innerText tid)) (value nb)))
         = Some e →
       updateBioBtn_click ε w =
         (Ok tt,
          World (<["updateResult" := set_innerText Msg.connection ur]>
                   (document w))
                (trace w
                 ++ [Fetched (update_request (Number_ (innerText tid))
                                (value nb));
                     Logged e])))
  ∧ (∀ tid : element,
       document w !! "tokenId" = Some tid →
       user ε Msg.ask_delete = true →
       transport_error
         (service ε (delete_request (Number_ (innerText tid)))) = Some e →
       deleteTokenBtn_click ε w =
         (Ok tt,
          World (document w)
                (trace w
                 ++ [Asked Msg.ask_delete true;
                     Fetched (delete_request (Number_ (innerText tid)));
                     Alerted Msg.delete_error]))).
Proof.
  split; [|split].
  - intros. by eapply save_transport_failure.
  - intros. by eapply update_transport_failure.
  - intros. by eapply delete_transport_failure.
Qed.

Lemma transport_failure_generic_message_witness :
  saveTokenBtn_click (Sample.offline true) Sample.start =
    (Ok tt,
     World (<["saveResult" := set_innerText Msg.connection Sample.blank]>
              (document Sample.start))
           (trace Sample.start
            ++ [Fetched (save_request (trim (value (Sample.input "  abc  ")))
                           (or_else (trim (value (Sample.input " ")))
                              (js "default")));
                Logged (NetworkError Sample.unreachable)]))
  ∧ updateBioBtn_click (Sample.offline true) Sample.start =
      (Ok tt,
       World (<["updateResult" := set_innerText Msg.connection Sample.blank]>
                (document Sample.start))
             (trace Sample.start
              ++ [Fetched (update_request (Number_ (innerText Sample.blank))
                             (value (Sample.input " hi ")));
                  Logged (NetworkError Sample.unreachable)]))
  ∧ deleteTokenBtn_click (Sample.offline true) Sample.start =
      (Ok tt,
       World (document Sample.start)
             (trace Sample.start
              ++ [Asked Msg.ask_delete true;
                  Fetched (delete_request (Number_ (innerText Sample.blank)));
                  Alerted Msg.delete_error])).
Proof.
  destruct (transport_failure_generic_message (Sample.offline true)
              Sample.start (NetworkError Sample.unreachable))
    as (Hsave & Hupdate & Hdelete).
  split; [|split].
  - exact (Hsave (Sample.input "  abc  ") (Sample.input " ") Sample.blank
             eq_refl eq_refl eq_refl eq_refl).
  - exact (Hupdate Sample.blank (Sample.input " hi ") Sample.blank
             eq_refl eq_refl eq_refl eq_refl).
  - exact (Hdelete Sample.blank eq_refl eq_refl eq_refl).
Defined.

(** C3, as stated, fails on an answer whose [error] field is present but
    empty: the status does not show that field's text after the prefix, it
    shows the dump of the whole answer. *)
Lemma empty_error_field_dumps_response :
  own [(js "ok", JBool false); (js "error", JStr [])] (js "error")
    = Some (JStr [])
  ∧ innerText <$>
      document (saveTokenBtn_click (Sample.answering Sample.silent true)
                  Sample.start).2 !! "saveResult"
    = Some (Msg.save_failed ++ jsq "{'ok':false,'error':''}")
  ∧ innerText <$>
      document (saveTokenBtn_click (Sample.answering Sample.silent true)
                  Sample.start).2 !! "saveResult"
    ≠ Some (Msg.save_failed ++ []).
Proof.
  split; [reflexivity|]. split; [by vm_compute|]. by vm_compute.
Qed.

(** C3, amended.  For a save or an update answered [{ok: false, ...}], the
    numbers of the answer being integers of magnitude at most 2^53: when
    the [error] field is a text that is not empty, the status shows the
    operation's prefix followed by that text; when the field is absent or
    falsy (the empty text, [null], [false], [0]), the status shows the
    prefix followed by [JSON.stringify] of the whole answer.  In both cases
    what follows the prefix is not the empty text.  An [error] field that
    is truthy without being a text is left out of this statement. *)
Theorem failure_message_source ε w props (shown : jsstring) :
  own props (js "ok") = Some (JBool false) →
  safe_integers (JObj props) = true →
  (own props (js "error") = Some (JStr shown) ∧ shown ≠ []
   ∨ truthy (own props (js "error")) = false
     ∧ shown = JSON_stringify (JObj props)) →
  shown ≠ []
  ∧ (∀ tok lab res : element,
       document w !! "token" = Some tok →
       document w !! "label" = Some lab →
       document w !! "saveResult" = Some res →
       service ε (save_request (trim (value tok))
                    (or_else (trim (value lab)) (js "default")))
         = Responded (Json (JObj props)) →
       saveTokenBtn_click ε w =
         (Ok tt,
          World (<["saveResult" :=
                    set_innerText (Msg.save_failed ++ shown) res]>
                   (document w))
                (trace w
                 ++ [Fetched (save_request (trim (value tok))
                                (or_else (trim (value lab))
                                   (js "default")))])))
  ∧ (∀ tid nb ur : element,
       document w !! "tokenId" = Some tid →
       document w !! "newBio" = Some nb →
       document w !! "updateResult" = Some ur →
       service ε (update_request (Number_ (innerText tid)) (value nb))
         = Responded (Json (JObj props)) →
       updateBioBtn_click ε w =
         (Ok tt,
          World (<["updateResult" :=
                    set_innerText (Msg.update_failed ++ shown) ur]>
                   (document w))
                (trace w
                 ++ [Fetched (update_request (Number_ (innerText tid))
                                (value nb))]))).
Proof.
  intros Hok _ Hshown.
  assert (error_text (JObj props) (own props (js "error")) = Ok shown
          ∧ shown ≠ []) as [Herr Hne].
  { destruct Hshown as [[-> Hne]|[Hfalsy ->]].
    - split; [by apply error_text_string | done].
    - split; [|apply JSON_stringify_nonempty].
      unfold error_text.
      destruct (own props (js "error")) as [v|]; [|done].
      by rewrite Hfalsy. }
  split; [done|]. split.
  - intros. by eapply save_rejected.
  - intros. by eapply update_rejected.
Qed.

Lemma failure_message_source_witness :
  (JSON_stringify Sample.refused ≠ []
   ∧ saveTokenBtn_click (Sample.answering Sample.refused true) Sample.start =
       (Ok tt,
        World (<["saveResult" :=
                  set_innerText
                    (Msg.save_failed ++ JSON_stringify Sample.refused)
                    Sample.blank]>
                 (document Sample.start))
              (trace Sample.start
               ++ [Fetched (save_request
                              (trim (value (Sample.input "  abc  ")))
                              (or_else (trim (value (Sample.input " ")))
                                 (js "default")))])))
  ∧ (js "dup" ≠ []
     ∧ updateBioBtn_click (Sample.answering Sample.dup true) Sample.start =
         (Ok tt,
          World (<["updateResult" :=
                    set_innerText (Msg.update_failed ++ js "dup")
                      Sample.blank]>
                   (document Sample.start))
                (trace Sample.start
                 ++ [Fetched (update_request
                                (Number_ (innerText Sample.blank))
                                (value (Sample.input " hi ")))]))).
Proof.
  split.
  - destruct (failure_message_source (Sample.answering Sample.refused true)
                Sample.start [(js "ok", JBool false)]
                (JSON_stringify Sample.refused) eq_refl eq_refl
                (or_intror (conj eq_refl eq_refl)))
      as (Hne & Hsave & _).
    split; [exact Hne|].
    exact (Hsave (Sample.input "  abc  ") (Sample.input " ") Sample.blank
             eq_refl eq_refl eq_refl eq_refl).
  - assert (Hdup : js "dup" ≠ []) by (vm_compute; discriminate).
    destruct (failure_message_source (Sample.answering Sample.dup true)
                Sample.start
                [(js "ok", JBool false); (js "error", JStr (js "dup"))]
                (js "dup") eq_refl eq_refl
                (or_introl (conj eq_refl Hdup)))
      as (Hne & _ & Hupdate).
    split; [exact Hne|].
    exact (Hupdate Sample.blank (Sample.input " hi ") Sample.blank
             eq_refl eq_refl eq_refl eq_refl).
Defined.

Example truthy_error_that_is_no_text :
  innerText <$>
    document (saveTokenBtn_click
                (Sample.answering
                   (JObj [(js "ok", JBool false); (js "error", JArr [])]) true)
                Sample.start).2 !! "saveResult"
  = Some Msg.save_failed.
Proof. vm_compute. reflexivity. Qed.

Example refused_without_message :
  innerText <$>
    document (saveTokenBtn_click (Sample.answering Sample.refused true)
                Sample.start).2 !! "saveResult"
  = Some (Msg.save_failed ++ jsq "{'ok':false}").
Proof. vm_compute. reflexivity. Qed.

(** * Further properties of the handlers *)

(** ** What a click can do outside the page *)

(** Once its two inputs and its status element exist, a click on the save
    button always ends normally, whatever the service answers; it sends
    exactly one request; and the only other effect it can have is one call
    of [console.error], in which case the status shows the connection
    message. *)
Theorem save_click_effects ε w (tok lab res : element) :
  document w !! "token" = Some tok →
  document w !! "label" = Some lab →
  document w !! "saveResult" = Some res →
  ∃ d' rest,
    saveTokenBtn_click ε w =
      (Ok tt,
       World d' (trace w ++ Fetched (save_request (trim (value tok))
                                       (or_else (trim (value lab))
                                          (js "default")))
                           :: rest))
    ∧ (rest = []
       ∨ ∃ e, rest = [Logged e]
              ∧ innerText <$> d' !! "saveResult" = Some Msg.connection).
Proof.
  intros Htok Hlab Hres.
  explore; rewrite <- ?app_assoc; eexists _, _;
    (split; [reflexivity|]);
    first [ by left
          | right; eexists; split; [reflexivity|];
            by rewrite lookup_insert_eq ].
Qed.

Lemma save_click_effects_witness :
  ∃ d' rest,
    saveTokenBtn_click (Sample.offline true) Sample.start =
      (Ok tt,
       World d' (trace Sample.start
                 ++ Fetched (save_request
                               (trim (value (Sample.input "  abc  ")))
                               (or_else (trim (value (Sample.input " ")))
                                  (js "default")))
                    :: rest))
    ∧ (rest = []
       ∨ ∃ e, rest = [Logged e]
              ∧ innerText <$> d' !! "saveResult" = Some Msg.connection).
Proof.
  apply (save_click_effects (Sample.offline true) Sample.start
           (Sample.input "  abc  ") (Sample.input " ") Sample.blank);
    reflexivity.
Defined.

(** The same for the update button, once the identifier element, the bio
    input and the status element exist. *)
Theorem update_click_effects ε w (tid nb ur : element) :
  document w !! "tokenId" = Some tid →
  document w !! "newBio" = Some nb →
  document w !! "updateResult" = Some ur →
  ∃ d' rest,
    updateBioBtn_click ε w =
      (Ok tt,
       World d' (trace w ++ Fetched (update_request (Number_ (innerText tid))
                                       (value nb))
                           :: rest))
    ∧ (rest = []
       ∨ ∃ e, rest = [Logged e]
              ∧ innerText <$> d' !! "updateResult" = Some Msg.connection).
Proof.
  intros Htid Hnb Hur.
  explore; rewrite <- ?app_assoc; eexists _, _;
    (split; [reflexivity|]);
    first [ by left
          | right; eexists; split; [reflexivity|];
            by rewrite lookup_insert_eq ].
Qed.

Lemma update_click_effects_witness :
  ∃ d' rest,
    updateBioBtn_click (Sample.answering JNull true) Sample.start =
      (Ok tt,
       World d' (trace Sample.start
                 ++ Fetched (update_request (Number_ (innerText Sample.blank))
                               (value (Sample.input " hi ")))
                    :: rest))
    ∧ (rest = []
       ∨ ∃ e, rest = [Logged e]
              ∧ innerText <$> d' !! "updateResult" = Some Msg.connection).
Proof.
  apply (update_click_effects (Sample.answering JNull true) Sample.start
           Sample.blank (Sample.input " hi ") Sample.blank);
    reflexivity.
Defined.

(** Choosing the disjunct that holds by its syntax alone. *)
Ltac pick_case :=
  repeat match goal with
  | |- ?a = ?b => constr_eq a b; reflexivity
  | |- (?a = ?b) ∨ _ => tryif constr_eq a b then (left; reflexivity) else right
  | |- ∃ _, _ => eexists; split; [reflexivity|]
  end.

(** What a click on the delete button does, once the identifier element
    exists: it ends normally, never changes the page, and its effects are
    the confirmation alone when the user declines, and otherwise the
    confirmation, one request and one alert, followed by a reload exactly
    when the alert is the one that reports the deletion. *)
Theorem delete_click_effects ε w (tid : element) :
  document w !! "tokenId" = Some tid →
  ∃ evs,
    deleteTokenBtn_click ε w = (Ok tt, World (document w) (trace w ++ evs))
    ∧ (evs = [Asked Msg.ask_delete false]
       ∨ ∃ tail,
           evs = Asked Msg.ask_delete true
                 :: Fetched (delete_request (Number_ (innerText tid))) :: tail
           ∧ (tail = [Alerted Msg.deleted; Reloaded]
              ∨ tail = [Alerted Msg.delete_failed]
              ∨ tail = [Alerted Msg.delete_error])).
Proof.
  intros Htid.
  explore; rewrite <- ?app_assoc; cbn [app]; eexists;
    (split; [reflexivity|]); pick_case.
Qed.

Lemma delete_click_effects_witness :
  ∃ evs,
    deleteTokenBtn_click (Sample.answering Sample.refused true) Sample.start
      = (Ok tt, World (document Sample.start) (trace Sample.start ++ evs))
    ∧ (evs = [Asked Msg.ask_delete false]
       ∨ ∃ tail,
           evs = Asked Msg.ask_delete true
                 :: Fetched (delete_request (Number_ (innerText Sample.blank)))
                 :: tail
           ∧ (tail = [Alerted Msg.deleted; Reloaded]
              ∨ tail = [Alerted Msg.delete_failed]
              ∨ tail = [Alerted Msg.delete_error])).
Proof.
  apply (delete_click_effects (Sample.answering Sample.refused true)
           Sample.start Sample.blank).
  reflexivity.
Defined.

(** A handler whose first lookups fail throws before it has done anything:
    no request, no dialog, no change to the page.  For save these are the
    two inputs and the status element, for update the identifier element,
    the bio input and the status element, for delete the identifier
    element. *)
Theorem missing_element_aborts ε w :
  (document w !! "token" = None ∨ document w !! "label" = None
   ∨ document w !! "saveResult" = None →
   saveTokenBtn_click ε w = (Throw null_access, w))
  ∧ (document w !! "tokenId" = None ∨ document w !! "newBio" = None
     ∨ document w !! "updateResult" = None →
     updateBioBtn_click ε w = (Throw null_access, w))
  ∧ (document w !! "tokenId" = None →
     deleteTokenBtn_click ε w = (Throw null_access, w)).
Proof.
  split; [|split].
  - intros [H|[H|H]]; explore; done.
  - intros [H|[H|H]]; explore; done.
  - intros H. by run.
Qed.

Lemma missing_element_aborts_witness :
  saveTokenBtn_click (Sample.offline true) (World ∅ []) = (Throw null_access, World ∅ [])
  ∧ updateBioBtn_click (Sample.offline true) (World ∅ [])
    = (Throw null_access, World ∅ [])
  ∧ deleteTokenBtn_click (Sample.offline true) (World ∅ [])
    = (Throw null_access, World ∅ []).
Proof.
  destruct (missing_element_aborts (Sample.offline true) (World ∅ []))
    as (Hsave & Hupdate & Hdelete).
  split; [|split].
  - exact (Hsave (or_introl eq_refl)).
  - exact (Hupdate (or_introl eq_refl)).
  - exact (Hdelete eq_refl).
Defined.

(** ** What a click leaves alone in the page *)

(** A click on the save button changes no element other than the status,
    the identifier, step 1 and the dashboard; it creates and removes none;
    and it never changes the [value] of an element: the token stays in its
    input. *)
Theorem save_click_frame ε w id :
  (id ∉ ["saveResult"; "tokenId"; "step1"; "dashboard"] →
   document (saveTokenBtn_click ε w).2 !! id = document w !! id)
  ∧ value <$> document (saveTokenBtn_click ε w).2 !! id
    = value <$> document w !! id.
Proof.
  split.
  - intros Hid.
    assert (id ≠ "saveResult" ∧ id ≠ "tokenId" ∧ id ≠ "step1"
            ∧ id ≠ "dashboard") as (H1 & H2 & H3 & H4).
    { apply not_elem_of_cons in Hid as [? Hid].
      apply not_elem_of_cons in Hid as [? Hid].
      apply not_elem_of_cons in Hid as [? Hid].
      by apply not_elem_of_cons in Hid as [? _]. }
    explore; cbn [snd document]; by rewrite ?lookup_insert_ne.
  - explore; cbn [snd document];
      repeat match goal with
      | |- context [<[?k := _]> _ !! id] =>
        destruct (decide (k = id)) as [<-|];
        [rewrite lookup_insert_eq | rewrite lookup_insert_ne by done]
      end;
      by repeat match goal with H : _ !! _ = _ |- _ => rewrite H end.
Qed.

Lemma save_click_frame_witness :
  document (saveTokenBtn_click (Sample.answering Sample.saved42 true)
              Sample.start).2 !! "token"
  = document Sample.start !! "token".
Proof.
  apply (save_click_frame (Sample.answering Sample.saved42 true)
           Sample.start "token").
  vm_compute. intros H.
  repeat (apply elem_of_cons in H as [H|H]; [discriminate|]).
  by apply elem_of_nil in H.
Defined.

(** A click on the update button changes no element other than its status
    and the bio display (and of those only the text): so it changes
    neither the view nor the session identifier. *)
Theorem update_click_frame ε w :
  (∀ id, id ∉ ["updateResult"; "displayBio"] →
         document (updateBioBtn_click ε w).2 !! id = document w !! id)
  ∧ view_of (document (updateBioBtn_click ε w).2) = view_of (document w)
  ∧ session_text (document (updateBioBtn_click ε w).2)
    = session_text (document w).
Proof.
  assert (Hframe : ∀ id, id ≠ "updateResult" → id ≠ "displayBio" →
            document (updateBioBtn_click ε w).2 !! id = document w !! id).
  { intros id H1 H2.
    explore; cbn [snd document]; by rewrite ?lookup_insert_ne. }
  split; [|split].
  - intros id Hid.
    apply not_elem_of_cons in Hid as [? Hid].
    apply not_elem_of_cons in Hid as [? _]. by apply Hframe.
  - unfold view_of. by rewrite !Hframe.
  - unfold session_text. by rewrite Hframe.
Qed.

Lemma update_click_frame_witness :
  document (updateBioBtn_click (Sample.answering Sample.accepted true)
              Sample.start).2 !! "tokenId"
  = document Sample.start !! "tokenId".
Proof.
  apply (update_click_frame (Sample.answering Sample.accepted true)
           Sample.start).
  vm_compute. intros H.
  repeat (apply elem_of_cons in H as [H|H]; [discriminate|]).
  by apply elem_of_nil in H.
Defined.

(** A click on the delete button never changes the page itself, whatever
    the user and the service answer: what resets the page is the reload. *)
Theorem delete_click_frame ε w :
  document (deleteTokenBtn_click ε w).2 = document w.
Proof. by explore. Qed.

(** ** Which answers count as a success *)

(** The save handler branches on the truthiness of [ok], not on [ok]
    being [true]: any answer whose [ok] is truthy is a success, and the
    identifier element receives the text of whatever [id] is (the numbers
    of the answer being integers of magnitude at most 2^53). *)
Theorem save_truthy_ok_is_success
    ε w (tok lab res tid s1 db : element) props text :
  document w !! "token" = Some tok →
  document w !! "label" = Some lab →
  document w !! "saveResult" = Some res →
  document w !! "tokenId" = Some tid →
  document w !! "step1" = Some s1 →
  document w !! "dashboard" = Some db →
  service ε (save_request (trim (value tok))
               (or_else (trim (value lab)) (js "default")))
    = Responded (Json (JObj props)) →
  safe_integers (JObj props) = true →
  truthy (own props (js "ok")) = true →
  to_DOMString (own props (js "id")) = Ok text →
  saveTokenBtn_click ε w =
    (Ok tt,
     World
       (<["dashboard" := classList_remove "hidden" db]>
          (<["step1" := classList_add "hidden" s1]>
             (<["tokenId" := set_innerText text tid]>
                (<["saveResult" := set_innerText Msg.saved res]>
                   (document w)))))
       (trace w ++ [Fetched (save_request (trim (value tok))
                               (or_else (trim (value lab)) (js "default")))])).
Proof. intros Htok Hlab Hres Htid Hs1 Hdb Hsrv _ Hok Htext. by run. Qed.

Lemma save_truthy_ok_is_success_witness :
  saveTokenBtn_click
    (Sample.answering (JObj [(js "ok", JNum 1); (js "id", JStr (js "t7"))]) true)
    Sample.start
  = (Ok tt,
     World
       (<["dashboard" := classList_remove "hidden" (Element [] [] {["hidden"]})]>
          (<["step1" := classList_add "hidden" Sample.blank]>
             (<["tokenId" := set_innerText (js "t7") Sample.blank]>
                (<["saveResult" := set_innerText Msg.saved Sample.blank]>
                   (document Sample.start)))))
       (trace Sample.start
        ++ [Fetched (save_request (trim (value (Sample.input "  abc  ")))
                       (or_else (trim (value (Sample.input " ")))
                          (js "default")))])).
Proof.
  apply (save_truthy_ok_is_success
           (Sample.answering
              (JObj [(js "ok", JNum 1); (js "id", JStr (js "t7"))]) true)
           Sample.start (Sample.input "  abc  ") (Sample.input " ")
           Sample.blank Sample.blank Sample.blank (Element [] [] {["hidden"]})
           [(js "ok", JNum 1); (js "id", JStr (js "t7"))] (js "t7"));
    reflexivity.
Defined.

(** A success answer without an [id] still opens the dashboard; the
    identifier element then reads [undefined], which [Number] does not
    turn into an integer. *)
Theorem save_success_without_id ε w (tok lab res tid s1 db : element) props :
  document w !! "token" = Some tok →
  document w !! "label" = Some lab →
  document w !! "saveResult" = Some res →
  document w !! "tokenId" = Some tid →
  document w !! "step1" = Some s1 →
  document w !! "dashboard" = Some db →
  service ε (save_request (trim (value tok))
               (or_else (trim (value lab)) (js "default")))
    = Responded (Json (JObj props)) →
  truthy (own props (js "ok")) = true →
  own props (js "id") = None →
  ∃ w',
    saveTokenBtn_click ε w = (Ok tt, w')
    ∧ session_text (document w') = Some (js "undefined")
    ∧ session (document w') = Some (NOther (js "undefined"))
    ∧ view_of (document w') = Some Dashboard.
Proof.
  intros Htok Hlab Hres Htid Hs1 Hdb Hsrv Hok Hid.
  eexists. split; [by run|]. cbn [document].
  assert (Htext : session_text
            (<["dashboard" := classList_remove "hidden" db]>
               (<["step1" := classList_add "hidden" s1]>
                  (<["tokenId" := set_innerText (js "undefined") tid]>
                     (<["saveResult" := set_innerText Msg.saved res]>
                        (document w)))))
          = Some (js "undefined")).
  { unfold session_text.
    rewrite (lookup_insert_ne _ "dashboard" "tokenId") by done.
    rewrite (lookup_insert_ne _ "step1" "tokenId") by done.
    by rewrite lookup_insert_eq. }
  split; [done|]. split.
  - unfold session. by rewrite Htext.
  - apply view_of_dashboard.
Qed.

Lemma save_success_without_id_witness :
  ∃ w',
    saveTokenBtn_click (Sample.answering Sample.accepted true) Sample.start
      = (Ok tt, w')
    ∧ session_text (document w') = Some (js "undefined")
    ∧ session (document w') = Some (NOther (js "undefined"))
    ∧ view_of (document w') = Some Dashboard.
Proof.
  apply (save_success_without_id (Sample.answering Sample.accepted true)
           Sample.start (Sample.input "  abc  ") (Sample.input " ")
           Sample.blank Sample.blank Sample.blank (Element [] [] {["hidden"]})
           [(js "ok", JBool true)]);
    reflexivity.
Defined.

(** What [try]/[catch] does not undo: when the page has no [step1]
    element, a success answer has already put the identifier in the page
    when the failing lookup throws; the status then shows the connection
    message, the error goes to the console, and the dashboard stays as it
    was (the numbers of the answer being integers of magnitude at most
    2^53). *)
Theorem save_success_cut_short ε w (tok lab res tid : element) props text :
  document w !! "token" = Some tok →
  document w !! "label" = Some lab →
  document w !! "saveResult" = Some res →
  document w !! "tokenId" = Some tid →
  document w !! "step1" = None →
  service ε (save_request (trim (value tok))
               (or_else (trim (value lab)) (js "default")))
    = Responded (Json (JObj props)) →
  safe_integers (JObj props) = true →
  truthy (own props (js "ok")) = true →
  to_DOMString (own props (js "id")) = Ok text →
  saveTokenBtn_click ε w =
    (Ok tt,
     World
       (<["saveResult" := set_innerText Msg.connection res]>
          (<["tokenId" := set_innerText text tid]> (document w)))
       (trace w ++ [Fetched (save_request (trim (value tok))
                               (or_else (trim (value lab)) (js "default")));
                    Logged null_access])).
Proof.
  intros Htok Hlab Hres Htid Hs1 Hsrv _ Hok Htext. run.
  rewrite <- app_assoc. cbn [app]. do 2 f_equal.
  apply map_eq. intros k.
  destruct (decide (k = "saveResult")) as [->|];
    [by rewrite !lookup_insert_eq|].
  rewrite (lookup_insert_ne _ "saveResult" k) by done.
  destruct (decide (k = "tokenId")) as [->|].
  - rewrite (lookup_insert_ne _ "saveResult" "tokenId") by done.
    by rewrite !lookup_insert_eq.
  - by rewrite !lookup_insert_ne.
Qed.

Lemma save_success_cut_short_witness :
  saveTokenBtn_click (Sample.answering Sample.saved42 true)
    (World (delete "step1" Sample.page) [])
  = (Ok tt,
     World
       (<["saveResult" := set_innerText Msg.connection Sample.blank]>
          (<["tokenId" := set_innerText (js "42") Sample.blank]>
             (delete "step1" Sample.page)))
       ([] ++ [Fetched (save_request (trim (value (Sample.input "  abc  ")))
                          (or_else (trim (value (Sample.input " ")))
                             (js "default")));
               Logged null_access])).
Proof.
  exact (save_success_cut_short (Sample.answering Sample.saved42 true)
           (World (delete "step1" Sample.page) [])
           (Sample.input "  abc  ") (Sample.input " ") Sample.blank
           Sample.blank [(js "ok", JBool true); (js "id", JNum 42)] (js "42")
           eq_refl eq_refl eq_refl eq_refl eq_refl eq_refl eq_refl eq_refl
           eq_refl).
Defined.

(** ** Answers that are not the expected object *)

(** The JSON value [null] is a valid body, but reading [ok] from it
    throws: each handler then takes its [catch] path, as for a transport
    failure.  Save and update show the connection message and log the
    TypeError; a confirmed delete shows its error alert. *)
Theorem null_answer_is_caught ε w :
  (∀ tok lab res : element,
     document w !! "token" = Some tok →
     document w !! "label" = Some lab →
     document w !! "saveResult" = Some res →
     service ε (save_request (trim (value tok))
                  (or_else (trim (value lab)) (js "default")))
       = Responded (Json JNull) →
     saveTokenBtn_click ε w =
       (Ok tt,
        World (<["saveResult" := set_innerText Msg.connection res]> (document w))
              (trace w
               ++ [Fetched (save_request (trim (value tok))
                              (or_else (trim (value lab)) (js "default")));
                   Logged (TypeError "property of null")])))
  ∧ (∀ tid nb ur : element,
       document w !! "tokenId" = Some tid →
       document w !! "newBio" = Some nb →
       document w !! "updateResult" = Some ur →
       service ε (update_request (Number_ (innerText tid)) (value nb))
         = Responded (Json JNull) →
       updateBioBtn_click ε w =
         (Ok tt,
          World (<["updateResult" := set_innerText Msg.connection ur]>
                   (document w))
                (trace w
                 ++ [Fetched (update_request (Number_ (innerText tid))
                                (value nb));
                     Logged (TypeError "property of null")])))
  ∧ (∀ tid : element,
       document w !! "tokenId" = Some tid →
       user ε Msg.ask_delete = true →
       service ε (delete_request (Number_ (innerText tid)))
         = Responded (Json JNull) →
       deleteTokenBtn_click ε w =
         (Ok tt,
          World (document w)
                (trace w
                 ++ [Asked Msg.ask_delete true;
                     Fetched (delete_request (Number_ (innerText tid)));
                     Alerted Msg.delete_error]))).
Proof.
  split; [|split]; intros; run; by rewrite <- !app_assoc.
Qed.

Lemma null_answer_is_caught_witness :
  saveTokenBtn_click (Sample.answering JNull true) Sample.start =
    (Ok tt,
     World (<["saveResult" := set_innerText Msg.connection Sample.blank]>
              (document Sample.start))
           (trace Sample.start
            ++ [Fetched (save_request (trim (value (Sample.input "  abc  ")))
                           (or_else (trim (value (Sample.input " ")))
                              (js "default")));
                Logged (TypeError "property of null")]))
  ∧ updateBioBtn_click (Sample.answering JNull true) Sample.start =
      (Ok tt,
       World (<["updateResult" := set_innerText Msg.connection Sample.blank]>
                (document Sample.start))
             (trace Sample.start
              ++ [Fetched (update_request (Number_ (innerText Sample.blank))
                             (value (Sample.input " hi ")));
                  Logged (TypeError "property of null")]))
  ∧ deleteTokenBtn_click (Sample.answering JNull true) Sample.start =
      (Ok tt,
       World (document Sample.start)
             (trace Sample.start
              ++ [Asked Msg.ask_delete true;
                  Fetched (delete_request (Number_ (innerText Sample.blank)));
                  Alerted Msg.delete_error])).
Proof.
  destruct (null_answer_is_caught (Sample.answering JNull true) Sample.start)
    as (Hsave & Hupdate & Hdelete).
  split; [|split].
  - exact (Hsave (Sample.input "  abc  ") (Sample.input " ") Sample.blank
             eq_refl eq_refl eq_refl eq_refl).
  - exact (Hupdate Sample.blank (Sample.input " hi ") Sample.blank
             eq_refl eq_refl eq_refl eq_refl).
  - exact (Hdelete Sample.blank eq_refl eq_refl eq_refl).
Defined.

(** A JSON answer that is neither [null] nor an object (an array, a text,
    a boolean, or a number, the numbers in it being integers of magnitude at
    most 2^53) has no [ok] and no [error]: save and update show
    their failure prefix followed by the dump of the value, a confirmed
    delete shows its failure alert and does not reload. *)
Theorem non_object_answer_is_failure ε w j :
  match j with JNull | JObj _ => False | _ => True end →
  safe_integers j = true →
  (∀ tok lab res : element,
     document w !! "token" = Some tok →
     document w !! "label" = Some lab →
     document w !! "saveResult" = Some res →
     service ε (save_request (trim (value tok))
                  (or_else (trim (value lab)) (js "default")))
       = Responded (Json j) →
     saveTokenBtn_click ε w =
       (Ok tt,
        World (<["saveResult" :=
                  set_innerText (Msg.save_failed ++ JSON_stringify j) res]>
                 (document w))
              (trace w
               ++ [Fetched (save_request (trim (value tok))
                              (or_else (trim (value lab)) (js "default")))])))
  ∧ (∀ tid nb ur : element,
       document w !! "tokenId" = Some tid →
       document w !! "newBio" = Some nb →
       document w !! "updateResult" = Some ur →
       service ε (update_request (Number_ (innerText tid)) (value nb))
         = Responded (Json j) →
       updateBioBtn_click ε w =
         (Ok tt,
          World (<["updateResult" :=
                    set_innerText (Msg.update_failed ++ JSON_stringify j) ur]>
                   (document w))
                (trace w
                 ++ [Fetched (update_request (Number_ (innerText tid))
                                (value nb))])))
  ∧ (∀ tid : element,
       document w !! "tokenId" = Some tid →
       user ε Msg.ask_delete = true →
       service ε (delete_request (Number_ (innerText tid)))
         = Responded (Json j) →
       deleteTokenBtn_click ε w =
         (Ok tt,
          World (document w)
                (trace w
                 ++ [Asked Msg.ask_delete true;
                     Fetched (delete_request (Number_ (innerText tid)));
                     Alerted Msg.delete_failed]))).
Proof.
  intros Hj _.
  split; [|split]; intros; destruct j; try done;
    run; cbn [error_text]; run; by rewrite <- ?app_assoc.
Qed.

Lemma non_object_answer_is_failure_witness :
  saveTokenBtn_click (Sample.answering (JArr []) true) Sample.start =
    (Ok tt,
     World (<["saveResult" :=
               set_innerText (Msg.save_failed ++ JSON_stringify (JArr []))
                 Sample.blank]>
              (document Sample.start))
           (trace Sample.start
            ++ [Fetched (save_request (trim (value (Sample.input "  abc  ")))
                           (or_else (trim (value (Sample.input " ")))
                              (js "default")))])).
Proof.
  destruct (non_object_answer_is_failure (Sample.answering (JArr []) true)
              Sample.start (JArr []) I eq_refl) as (Hsave & _ & _).
  exact (Hsave (Sample.input "  abc  ") (Sample.input " ") Sample.blank
           eq_refl eq_refl eq_refl eq_refl).
Defined.

(** An object whose [ok] is falsy (absent, [false], [0], the empty text,
    [null]) is a failure for the delete handler whatever else it holds:
    the failure alert is shown, the page is not reloaded, nothing of the
    answer is displayed. *)
Theorem delete_falsy_ok_is_failure ε w (tid : element) props :
  document w !! "tokenId" = Some tid →
  user ε Msg.ask_delete = true →
  service ε (delete_request (Number_ (innerText tid)))
    = Responded (Json (JObj props)) →
  truthy (own props (js "ok")) = false →
  deleteTokenBtn_click ε w =
    (Ok tt,
     World (document w)
           (trace w
            ++ [Asked Msg.ask_delete true;
                Fetched (delete_request (Number_ (innerText tid)));
                Alerted Msg.delete_failed])).
Proof. intros Htid Hyes Hsrv Hok. run. by rewrite <- !app_assoc. Qed.

Lemma delete_falsy_ok_is_failure_witness :
  deleteTokenBtn_click (Sample.answering Sample.dup true) Sample.start =
    (Ok tt,
     World (document Sample.start)
           (trace Sample.start
            ++ [Asked Msg.ask_delete true;
                Fetched (delete_request (Number_ (innerText Sample.blank)));
                Alerted Msg.delete_failed])).
Proof.
  apply (delete_falsy_ok_is_failure (Sample.answering Sample.dup true)
           Sample.start Sample.blank
           [(js "ok", JBool false); (js "error", JStr (js "dup"))]);
    reflexivity.
Defined.

(** ** What the requests carry *)

(** A label that is not blank is sent trimmed. *)
Theorem save_sends_trimmed_label ε w (lab : element) rq :
  document w !! "label" = Some lab →
  trim (value lab) ≠ [] →
  Fetched rq ∈ drop (length (trace w)) (trace (saveTokenBtn_click ε w).2) →
  ∃ token, body rq = SaveRequest token (trim (value lab)).
Proof.
  intros Hlab Hfilled.
  destruct (save_requests ε w) as (evs & Htrace & Hevs).
  rewrite Htrace, drop_app_length. intros Hin.
  destruct (Hevs rq Hin) as (tok & lab' & _ & Hlab' & ->).
  assert (lab' = lab) as -> by congruence.
  exists (trim (value tok)). unfold or_else.
  by destruct (trim (value lab)).
Qed.

Lemma save_sends_trimmed_label_witness :
  ∃ token, body (save_request (js "abc") (js "work"))
           = SaveRequest token (trim (value (Sample.input " work "))).
Proof.
  apply (save_sends_trimmed_label (Sample.offline true)
           (World (<["label" := Sample.input " work "]> Sample.page) [])
           (Sample.input " work ") (save_request (js "abc") (js "work"))).
  - reflexivity.
  - vm_compute. discriminate.
  - vm_compute. apply list_elem_of_here.
Defined.

(** Whatever the page and the service, the only request a click on the
    update button can send goes to the update endpoint as a JSON POST and
    carries the number read from the identifier element and the bio input
    as it stands, not trimmed. *)
Theorem update_request_content ε w rq :
  Fetched rq ∈ drop (length (trace w)) (trace (updateBioBtn_click ε w).2) →
  ∃ tid nb : element,
    document w !! "tokenId" = Some tid
    ∧ document w !! "newBio" = Some nb
    ∧ url rq = js "/api/update-bio"
    ∧ method rq = js "POST"
    ∧ headers rq = [(js "Content-Type", js "application/json")]
    ∧ body rq = UpdateRequest (Number_ (innerText tid)) (value nb).
Proof.
  assert (∃ evs,
            trace (updateBioBtn_click ε w).2 = trace w ++ evs
            ∧ ∀ rq, Fetched rq ∈ evs →
                ∃ tid nb,
                  document w !! "tokenId" = Some tid
                  ∧ document w !! "newBio" = Some nb
                  ∧ rq = update_request (Number_ (innerText tid)) (value nb))
    as (evs & Htrace & Hevs).
  { explore; cbn [snd trace]; rewrite <- ?app_assoc;
      (eexists; split; [first [reflexivity | symmetry; apply app_nil_r] | ]);
      intros rq' Hin;
      repeat (apply elem_of_cons in Hin as [Hin|Hin]; [simplify_eq|]);
      try (by apply elem_of_nil in Hin); eauto. }
  rewrite Htrace, drop_app_length. intros Hin.
  destruct (Hevs rq Hin) as (tid & nb & Htid & Hnb & ->).
  by exists tid, nb.
Qed.

Lemma update_request_content_witness :
  ∃ tid nb : element,
    document Sample.start !! "tokenId" = Some tid
    ∧ document Sample.start !! "newBio" = Some nb
    ∧ url (update_request (NInt 0) (js " hi ")) = js "/api/update-bio"
    ∧ method (update_request (NInt 0) (js " hi ")) = js "POST"
    ∧ headers (update_request (NInt 0) (js " hi "))
      = [(js "Content-Type", js "application/json")]
    ∧ body (update_request (NInt 0) (js " hi "))
      = UpdateRequest (Number_ (innerText tid)) (value nb).
Proof.
  apply (update_request_content (Sample.offline true) Sample.start
           (update_request (NInt 0) (js " hi "))).
  vm_compute. apply list_elem_of_here.
Defined.

(** Whatever the page and the service, a click on the delete button sends
    a request only after the user has confirmed; it goes to the delete
    endpoint as a JSON POST and carries the number read from the
    identifier element. *)
Theorem delete_request_content ε w rq :
  Fetched rq ∈ drop (length (trace w)) (trace (deleteTokenBtn_click ε w).2) →
  user ε Msg.ask_delete = true
  ∧ ∃ tid : element,
      document w !! "tokenId" = Some tid
      ∧ url rq = js "/api/delete-token"
      ∧ method rq = js "POST"
      ∧ headers rq = [(js "Content-Type", js "application/json")]
      ∧ body rq = DeleteRequest (Number_ (innerText tid)).
Proof.
  assert (∃ evs,
            trace (deleteTokenBtn_click ε w).2 = trace w ++ evs
            ∧ ∀ rq, Fetched rq ∈ evs →
                user ε Msg.ask_delete = true
                ∧ ∃ tid,
                    document w !! "tokenId" = Some tid
                    ∧ rq = delete_request (Number_ (innerText tid)))
    as (evs & Htrace & Hevs).
  { destruct (user ε Msg.ask_delete) eqn:Hu;
      explore; cbn [snd trace]; rewrite <- ?app_assoc;
      (eexists; split; [first [reflexivity | symmetry; apply app_nil_r] | ]);
      intros rq' Hin;
      repeat (apply elem_of_cons in Hin as [Hin|Hin]; [simplify_eq|]);
      try (by apply elem_of_nil in Hin); eauto. }
  rewrite Htrace, drop_app_length. intros Hin.
  destruct (Hevs rq Hin) as (Hyes & tid & Htid & ->).
  split; [done|]. by exists tid.
Qed.

Lemma delete_request_content_witness :
  user (Sample.offline true) Msg.ask_delete = true
  ∧ ∃ tid : element,
      document Sample.start !! "tokenId" = Some tid
      ∧ url (delete_request (NInt 0)) = js "/api/delete-token"
      ∧ method (delete_request (NInt 0)) = js "POST"
      ∧ headers (delete_request (NInt 0))
        = [(js "Content-Type", js "application/json")]
      ∧ body (delete_request (NInt 0)) = DeleteRequest (Number_ (innerText tid)).
Proof.
  apply (delete_request_content (Sample.offline true) Sample.start
           (delete_request (NInt 0))).
  vm_compute. apply list_elem_of_further, list_elem_of_here.
Defined.

(** A click on the delete button reloads the page exactly when the user
    confirmed and the service answered a JSON value whose [ok] is truthy. *)
Theorem delete_reloads_iff ε w (tid : element) :
  document w !! "tokenId" = Some tid →
  Reloaded ∈ drop (length (trace w)) (trace (deleteTokenBtn_click ε w).2)
  ↔ user ε Msg.ask_delete = true
    ∧ ∃ j ok,
        service ε (delete_request (Number_ (innerText tid)))
          = Responded (Json j)
        ∧ get j (js "ok") = Ok ok
        ∧ truthy ok = true.
Proof.
  intros Htid.
  destruct (user ε Msg.ask_delete) eqn:Hu;
    [destruct (service ε (delete_request (Number_ (innerText tid))))
       as [d|[d|j]] eqn:Hsrv;
     [| |destruct (get j (js "ok")) as [ok|e] eqn:Hget;
         [destruct (truthy ok) eqn:Hok|]]|];
    run; cbn [snd trace]; rewrite <- ?app_assoc; rewrite drop_app_length;
    cbn [app];
    (split;
     [ intros Hin;
       repeat (apply elem_of_cons in Hin as [Hin|Hin]; [try discriminate|]);
       try (by apply elem_of_nil in Hin)
     | intros (Hyes & j' & ok' & Hj & Hget' & Hok') ]);
    simplify_eq; eauto 10; try congruence.
  repeat constructor.
Qed.

Lemma delete_reloads_iff_witness :
  Reloaded ∈ drop (length (trace Sample.start))
               (trace (deleteTokenBtn_click
                         (Sample.answering Sample.accepted true)
                         Sample.start).2)
  ↔ user (Sample.answering Sample.accepted true) Msg.ask_delete = true
    ∧ ∃ j ok,
        service (Sample.answering Sample.accepted true)
          (delete_request (Number_ (innerText Sample.blank)))
          = Responded (Json j)
        ∧ get j (js "ok") = Ok ok
        ∧ truthy ok = true.
Proof.
  exact (delete_reloads_iff (Sample.answering Sample.accepted true)
           Sample.start Sample.blank eq_refl).
Defined.

(** ** How the handlers compose *)

Section AfterSave.

Variables (ε : env) (w : world) (tok lab res tid s1 db : element).
Variables (props : list (jsstring * json)) (z : Z).
Hypothesis Htok : document w !! "token" = Some tok.
Hypothesis Hlab : document w !! "label" = Some lab.
Hypothesis Hres : document w !! "saveResult" = Some res.
Hypothesis Htid : document w !! "tokenId" = Some tid.
Hypothesis Hs1 : document w !! "step1" = Some s1.
Hypothesis Hdb : document w !! "dashboard" = Some db.
Hypothesis Hsrv :
  service ε (save_request (trim (value tok))
               (or_else (trim (value lab)) (js "default")))
    = Responded (Json (JObj props)).
Hypothesis Hok : own props (js "ok") = Some (JBool true).
Hypothesis Hid : own props (js "id") = Some (JNum z).
Hypothesis Hz : Z.abs z ≤ MAX_EXACT.

Let saved : world := (saveTokenBtn_click ε w).2.

Lemma saved_world :
  saved =
    World
      (<["dashboard" := classList_remove "hidden" db]>
         (<["step1" := classList_add "hidden" s1]>
            (<["tokenId" := set_innerText (Dec.show_int z) tid]>
               (<["saveResult" := set_innerText Msg.saved res]>
                  (document w)))))
      (trace w ++ [Fetched (save_request (trim (value tok))
                              (or_else (trim (value lab)) (js "default")))]).
Proof.
  unfold saved.
  by rewrite (save_accepted ε w tok lab res tid s1 db Htok Hlab Hres Htid Hs1
                Hdb props _ (Dec.show_int z) Hsrv Hok Hid).
Qed.

Lemma saved_lookup id :
  id ∉ ["saveResult"; "tokenId"; "step1"; "dashboard"] →
  document saved !! id = document w !! id.
Proof.
  intros Hin. rewrite saved_world. cbn [document].
  apply not_elem_of_cons in Hin as [? Hin].
  apply not_elem_of_cons in Hin as [? Hin].
  apply not_elem_of_cons in Hin as [? Hin].
  apply not_elem_of_cons in Hin as [? _].
  by rewrite !lookup_insert_ne.
Qed.

Lemma saved_tokenId :
  document saved !! "tokenId" = Some (set_innerText (Dec.show_int z) tid).
Proof.
  rewrite saved_world. cbn [document].
  rewrite (lookup_insert_ne _ "dashboard" "tokenId") by done.
  rewrite (lookup_insert_ne _ "step1" "tokenId") by done.
  by rewrite lookup_insert_eq.
Qed.

(** The identifier a successful save stored is the one the two later
    handlers send, whatever service or user they then meet: the number
    survives the trip through the text of the identifier element. *)
Theorem saved_id_is_sent_later ε' (nb ur : element) :
  document w !! "newBio" = Some nb →
  document w !! "updateResult" = Some ur →
  (∃ rest,
     trace (updateBioBtn_click ε' saved).2
     = trace saved ++ Fetched (update_request (NInt z) (value nb)) :: rest)
  ∧ (user ε' Msg.ask_delete = true →
     ∃ rest,
       trace (deleteTokenBtn_click ε' saved).2
       = trace saved ++ Asked Msg.ask_delete true
                      :: Fetched (delete_request (NInt z)) :: rest).
Proof.
  intros Hnb Hur.
  assert (Hnum : Number_ (innerText (set_innerText (Dec.show_int z) tid))
                 = NInt z) by (by apply Number_show_int).
  split.
  - destruct (update_fetches ε' saved _ nb ur saved_tokenId) as [rest Hrest].
    + rewrite saved_lookup; [done|].
      intros H. repeat (apply elem_of_cons in H as [H|H]; [discriminate|]).
      by apply elem_of_nil in H.
    + rewrite saved_lookup; [done|].
      intros H. repeat (apply elem_of_cons in H as [H|H]; [discriminate|]).
      by apply elem_of_nil in H.
    + exists rest. by rewrite Hrest, Hnum.
  - intros Hyes.
    destruct (delete_fetches ε' saved _ saved_tokenId Hyes) as [rest Hrest].
    exists rest. by rewrite Hrest, Hnum.
Qed.

(** Nothing stops a second save: after a second success the identifier is
    the second one and the view is still Dashboard. *)
Theorem second_save_replaces_id ε' props' z' :
  service ε' (save_request (trim (value tok))
                (or_else (trim (value lab)) (js "default")))
    = Responded (Json (JObj props')) →
  own props' (js "ok") = Some (JBool true) →
  own props' (js "id") = Some (JNum z') →
  Z.abs z' ≤ MAX_EXACT →
  ∃ w'',
    saveTokenBtn_click ε' saved = (Ok tt, w'')
    ∧ session (document w'') = Some (NInt z')
    ∧ view_of (document w'') = Some Dashboard
    ∧ trace w'' =
        trace w
        ++ [Fetched (save_request (trim (value tok))
                       (or_else (trim (value lab)) (js "default")));
            Fetched (save_request (trim (value tok))
                       (or_else (trim (value lab)) (js "default")))].
Proof.
  intros Hsrv' Hok' Hid' Hz'.
  assert (Htok' : document saved !! "token" = Some tok).
  { rewrite saved_lookup; [done|].
    intros H. repeat (apply elem_of_cons in H as [H|H]; [discriminate|]).
    by apply elem_of_nil in H. }
  assert (Hlab' : document saved !! "label" = Some lab).
  { rewrite saved_lookup; [done|].
    intros H. repeat (apply elem_of_cons in H as [H|H]; [discriminate|]).
    by apply elem_of_nil in H. }
  assert (Hlookups :
            document saved !! "saveResult" = Some (set_innerText Msg.saved res)
            ∧ document saved !! "step1" = Some (classList_add "hidden" s1)
            ∧ document saved !! "dashboard"
              = Some (classList_remove "hidden" db)).
  { rewrite saved_world. cbn [document]. split; [|split].
    - rewrite (lookup_insert_ne _ "dashboard" "saveResult") by done.
      rewrite (lookup_insert_ne _ "step1" "saveResult") by done.
      rewrite (lookup_insert_ne _ "tokenId" "saveResult") by done.
      by rewrite lookup_insert_eq.
    - rewrite (lookup_insert_ne _ "dashboard" "step1") by done.
      by rewrite lookup_insert_eq.
    - by rewrite lookup_insert_eq. }
  destruct Hlookups as (Hres' & Hs1' & Hdb').
  eexists. split.
  { eapply (save_accepted ε' saved tok lab _ _ _ _ Htok' Hlab' Hres'
              saved_tokenId Hs1' Hdb' props' _ (Dec.show_int z') Hsrv' Hok' Hid').
    reflexivity. }
  cbn [document trace]. split; [|split].
  - unfold session, session_text.
    rewrite (lookup_insert_ne _ "dashboard" "tokenId") by done.
    rewrite (lookup_insert_ne _ "step1" "tokenId") by done.
    rewrite lookup_insert_eq. simpl. by rewrite Number_show_int.
  - apply view_of_dashboard.
  - rewrite saved_world. cbn [trace]. by rewrite <- app_assoc.
Qed.

End AfterSave.

Lemma saved_id_is_sent_later_witness :
  (∃ rest,
     trace (updateBioBtn_click (Sample.offline true)
              (saveTokenBtn_click (Sample.answering Sample.saved42 true)
                 Sample.start).2).2
     = trace (saveTokenBtn_click (Sample.answering Sample.saved42 true)
                Sample.start).2
       ++ Fetched (update_request (NInt 42) (value (Sample.input " hi ")))
          :: rest)
  ∧ (∃ rest,
       trace (deleteTokenBtn_click (Sample.offline true)
                (saveTokenBtn_click (Sample.answering Sample.saved42 true)
                   Sample.start).2).2
       = trace (saveTokenBtn_click (Sample.answering Sample.saved42 true)
                  Sample.start).2
         ++ Asked Msg.ask_delete true
            :: Fetched (delete_request (NInt 42)) :: rest).
Proof.
  assert (Hz : Z.abs 42 ≤ MAX_EXACT) by (vm_compute; discriminate).
  destruct (saved_id_is_sent_later
              (Sample.answering Sample.saved42 true) Sample.start
              (Sample.input "  abc  ") (Sample.input " ") Sample.blank
              Sample.blank Sample.blank (Element [] [] {["hidden"]})
              [(js "ok", JBool true); (js "id", JNum 42)] 42
              eq_refl eq_refl eq_refl eq_refl eq_refl eq_refl eq_refl
              eq_refl eq_refl Hz
              (Sample.offline true) (Sample.input " hi ") Sample.blank
              eq_refl eq_refl) as [Hupdate Hdelete].
  split; [exact Hupdate | exact (Hdelete eq_refl)].
Defined.

Lemma second_save_replaces_id_witness :
  ∃ w'',
    saveTokenBtn_click
      (Sample.answering (JObj [(js "ok", JBool true); (js "id", JNum 43)]) true)
      (saveTokenBtn_click (Sample.answering Sample.saved42 true)
         Sample.start).2
    = (Ok tt, w'')
    ∧ session (document w'') = Some (NInt 43)
    ∧ view_of (document w'') = Some Dashboard
    ∧ trace w'' =
        trace Sample.start
        ++ [Fetched (save_request (trim (value (Sample.input "  abc  ")))
                       (or_else (trim (value (Sample.input " ")))
                          (js "default")));
            Fetched (save_request (trim (value (Sample.input "  abc  ")))
                       (or_else (trim (value (Sample.input " ")))
                          (js "default")))].
Proof.
  assert (Hz : Z.abs 43 ≤ MAX_EXACT) by (vm_compute; discriminate).
  exact (second_save_replaces_id
           (Sample.answering Sample.saved42 true) Sample.start
           (Sample.input "  abc  ") (Sample.input " ") Sample.blank
           Sample.blank Sample.blank (Element [] [] {["hidden"]})
           [(js "ok", JBool true); (js "id", JNum 42)] 42
           eq_refl eq_refl eq_refl eq_refl eq_refl eq_refl eq_refl
           eq_refl eq_refl
           (Sample.answering
              (JObj [(js "ok", JBool true); (js "id", JNum 43)]) true)
           [(js "ok", JBool true); (js "id", JNum 43)] 43
           eq_refl eq_refl eq_refl Hz).
Defined.

(** ** Loading the script *)

(** When the page has the three buttons, loading the script ends normally
    and a click on each button runs the handler written for that button,
    once, and no other. *)
Theorem script_wires_each_button (d : gmap string element) ε w :
  is_Some (d !! "saveTokenBtn") →
  is_Some (d !! "updateBioBtn") →
  is_Some (d !! "deleteTokenBtn") →
  (script d).1 = Ok tt
  ∧ dispatch (script d).2 "saveTokenBtn" (js "click") ε w
    = ([(saveTokenBtn_click ε w).1], (saveTokenBtn_click ε w).2)
  ∧ dispatch (script d).2 "updateBioBtn" (js "click") ε w
    = ([(updateBioBtn_click ε w).1], (updateBioBtn_click ε w).2)
  ∧ dispatch (script d).2 "deleteTokenBtn" (js "click") ε w
    = ([(deleteTokenBtn_click ε w).1], (deleteTokenBtn_click ε w).2).
Proof.
  intros [b1 H1] [b2 H2] [b3 H3].
  unfold script, addEventListener. rewrite H1, H2, H3.
  cbn [fst snd app dispatch target kind callback].
  split; [done|].
  repeat split;
    repeat (case_decide as Hd;
            [try (by destruct Hd as [[=] _]) | try (by destruct Hd)]);
    by repeat match goal with
       | |- context [?h ε w] =>
         is_const h; destruct (h ε w)
       end.
Qed.

Lemma script_wires_each_button_witness :
  (script (<["saveTokenBtn" := Sample.blank]>
             (<["updateBioBtn" := Sample.blank]>
                (<["deleteTokenBtn" := Sample.blank]> Sample.page)))).1
  = Ok tt.
Proof.
  apply (script_wires_each_button
           (<["saveTokenBtn" := Sample.blank]>
              (<["updateBioBtn" := Sample.blank]>
                 (<["deleteTokenBtn" := Sample.blank]> Sample.page)))
           (Sample.offline true) Sample.start);
    by eexists.
Defined.

(** When the save button or the update button is missing, loading the
    script throws before the delete listener is attached: a click on the
    delete button then does nothing at all, even if that button is on the
    page. *)
Theorem script_stops_at_missing_button (d : gmap string element) ε w :
  d !! "saveTokenBtn" = None ∨ d !! "updateBioBtn" = None →
  (script d).1 = Throw null_access
  ∧ dispatch (script d).2 "deleteTokenBtn" (js "click") ε w = ([], w).
Proof.
  intros Hmissing. unfold script, addEventListener.
  destruct (d !! "saveTokenBtn") as [b1|] eqn:H1; [|done].
  destruct Hmissing as [?|H2]; [done|]. rewrite H2.
  cbn [fst snd app dispatch target kind callback].
  split; [done|].
  case_decide as Hd; [by destruct Hd as [[=] _] | done].
Qed.

Lemma script_stops_at_missing_button_witness :
  (script Sample.page).1 = Throw null_access
  ∧ dispatch (script Sample.page).2 "deleteTokenBtn" (js "click")
      (Sample.offline true) Sample.start
    = ([], Sample.start).
Proof.
  apply (script_stops_at_missing_button Sample.page (Sample.offline true)
           Sample.start).
  left. reflexivity.
Defined.
